(** * Attendance management: marking and aggregation engine

    A shallow embedding of the attendance application
    (attendance/models.py, attendance/views.py, attendance/admin.py) and the
    properties of its marking engine, attendance ledger, eligibility rule and
    aggregation engine.

    Database tables are lists of rows in insertion order; the primary key of
    an attendance row is its position in the table (rows are never deleted by
    the operations modelled here).  The columns [created_at] and
    [updated_at] are maintained from the wall clock and are not part of the
    model. *)

From Stdlib Require Import ZArith String Ascii List Lia Sorted Permutation.
From Stdlib Require Import Floats.SpecFloat.
From stdpp Require Import base decidable option list strings gmap pretty sorting.

Local Open Scope Z_scope.

(** ** Data model (attendance/models.py) *)

Module Date.
(** [datetime.date] *)
Record t := mk { year : Z; month : Z; day : Z }.
#[global] Instance eq_dec : EqDecision t.
Proof. solve_decision. Defined.
End Date.

Module Student.
(** [class Student(models.Model)]; [user] is the nullable one-to-one link
    to a login account. *)
Record t := mk {
  id : Z;
  user : option Z;
  roll_number : string;
  name : string;
  department : string;
  year : Z
}.
#[global] Instance eq_dec : EqDecision t.
Proof. solve_decision. Defined.
End Student.

Module Subject.
(** [class Subject(models.Model)] *)
Record t := mk {
  id : Z;
  subject_name : string;
  subject_code : string;
  department : string;
  year : Z
}.
#[global] Instance eq_dec : EqDecision t.
Proof. solve_decision. Defined.
End Subject.

(** [Attendance.STATUS_CHOICES]: ['P'] is Present, ['A'] is Absent. *)
Inductive Status := P | A.

#[global] Instance Status_eq_dec : EqDecision Status.
Proof. solve_decision. Defined.

Module Attendance.
(** An [Attendance] instance as Python holds it: the related objects are
    cached on the instance; [pk] is [None] until the instance is saved. *)
Record t := mk {
  pk : option nat;
  student : Student.t;
  subject : Subject.t;
  date : Date.t;
  status : Status
}.

(** A row of the attendance table: the foreign keys are stored as ids. *)
Record row := mkrow {
  student_id : Z;
  subject_id : Z;
  row_date : Date.t;
  row_status : Status
}.
#[global] Instance row_eq_dec : EqDecision row.
Proof. solve_decision. Defined.

Definition to_row (a : t) : row :=
  mkrow (Student.id (student a)) (Subject.id (subject a)) (date a) (status a).
End Attendance.

(** The columns of [unique_together = ['student', 'subject', 'date']]. *)
Definition unique_key : Type := Z * Z * Date.t.

Definition row_key (r : Attendance.row) : unique_key :=
  (Attendance.student_id r, Attendance.subject_id r, Attendance.row_date r).

Definition set_status (st : Status) (r : Attendance.row) : Attendance.row :=
  Attendance.mkrow (Attendance.student_id r) (Attendance.subject_id r)
                   (Attendance.row_date r) st.

(** The three tables. *)
Record DB := mkDB {
  students : list Student.t;
  subjects : list Subject.t;
  attendances : list Attendance.row
}.

(** ** Ordering of character columns

    [order_by('roll_number')] and [ordering = ['subject_code']] compare
    strings character by character (binary collation). *)

Definition str_le (a b : string) : Prop := String.leb a b = true.

#[global] Instance str_le_dec a b : Decision (str_le a b).
Proof. unfold str_le. solve_decision. Defined.

(** Comparison of two rows by a string column. *)
Definition by_column {A} (col : A → string) : relation A :=
  λ x y, str_le (col x) (col y).

#[global] Instance by_column_dec {A} (col : A → string) x y :
  Decision (by_column col x y).
Proof. unfold by_column. apply _. Defined.

(** [queryset.order_by(col)] *)
Definition order_by {A} (col : A → string) (rows : list A) : list A :=
  merge_sort (by_column col) rows.

(** ** Eligibility rule and eligible roster *)

(** The body of [Attendance.clean] on the instance's [student] and
    [subject]: [None] when validation passes, otherwise the message of the
    [ValidationError] raised. *)
Definition clean_related (student : Student.t) (subject : Subject.t)
  : option string :=
  if decide (Student.department student ≠ Subject.department subject)
  then Some "Student and Subject must be from the same department"
  else if decide (Student.year student ≠ Subject.year subject)
  then Some "Student and Subject must be from the same year"
  else None.

(** [Attendance.clean] *)
Definition Attendance_clean (self : Attendance.t) : option string :=
  clean_related (Attendance.student self) (Attendance.subject self).

(** The eligibility rule: [clean] accepts a record linking the two. *)
Definition isEligible (s : Student.t) (subj : Subject.t) : bool :=
  bool_decide (clean_related s subj = None).

(** [Student.objects.filter(department=subject.department,
    year=subject.year).order_by('roll_number')] (views.py, mark_attendance) *)
Definition computeEligibleRoster (db : DB) (subject : Subject.t)
  : list Student.t :=
  order_by Student.roll_number
    (filter (λ s, Student.department s = Subject.department subject
                  ∧ Student.year s = Subject.year subject) (students db)).

(** ** Attendance ledger: queries and writes

    The manager methods the views call on [Attendance.objects], over the
    attendance table. *)

Inductive exn := IntegrityError | MultipleObjectsReturned.

#[global] Instance exn_eq_dec : EqDecision exn.
Proof. solve_decision. Defined.

(** Result of a write: the new table, or the exception raised (the table is
    unchanged when a write raises). *)
Inductive outcome :=
  | Saved (table : list Attendance.row) (created : bool)
  | Raised (e : exn).

(** Rows selected by [filter(student=.., subject=.., date=..)], paired with
    their primary keys; [i] is the primary key of the first row of [rows]. *)
Fixpoint matching_from (k : unique_key) (rows : list Attendance.row) (i : nat)
  : list (nat * Attendance.row) :=
  match rows with
  | [] => []
  | r :: rows' =>
      if decide (row_key r = k)
      then (i, r) :: matching_from k rows' (S i)
      else matching_from k rows' (S i)
  end.

Inductive get_result :=
  | DoesNotExist
  | Found (pk : nat) (r : Attendance.row)
  | TooMany.

(** [Attendance.objects.get(student=.., subject=.., date=..)] *)
Definition objects_get (table : list Attendance.row) (k : unique_key)
  : get_result :=
  match matching_from k table 0 with
  | [] => DoesNotExist
  | [(i, r)] => Found i r
  | _ => TooMany
  end.

(** INSERT of a row: the [unique_together] constraint rejects a second row
    with the same (student, subject, date). *)
Definition insert_row (table : list Attendance.row) (r : Attendance.row)
  : exn + list Attendance.row :=
  if decide (row_key r ∈ row_key <$> table)
  then inl IntegrityError
  else inr (table ++ [r]).

(** UPDATE of the row with primary key [i]; the constraint is checked
    against the other rows. *)
Definition update_row (table : list Attendance.row) (i : nat)
    (r : Attendance.row) : exn + list Attendance.row :=
  if decide (row_key r ∈ row_key <$> delete i table)
  then inl IntegrityError
  else inr (<[i:=r]> table).

(** [Attendance.objects.create(student=.., subject=.., date=.., status=..)]:
    a raw insert; no validation method of the model is called. *)
Definition objects_create (table : list Attendance.row)
    (student : Student.t) (subject : Subject.t) (date : Date.t)
    (status : Status) : outcome :=
  match insert_row table
          (Attendance.mkrow (Student.id student) (Subject.id subject) date status) with
  | inr table' => Saved table' true
  | inl e => Raised e
  end.

(** The update half of [update_or_create]: [setattr(obj, 'status', status)]
    and [obj.save()] on the instance fetched by [get]. *)
Definition save_found (table : list Attendance.row) (i : nat)
    (r : Attendance.row) (status : Status) : outcome :=
  match update_row table i (set_status status r) with
  | inr table' => Saved table' false
  | inl e => Raised e
  end.

(** [Attendance.objects.update_or_create(student=.., subject=.., date=..,
    defaults={'status': status})] when no other request writes in between:
    [get], then either update the row found or create one; a failed create
    looks the row up once more before re-raising. *)
Definition update_or_create (table : list Attendance.row)
    (student : Student.t) (subject : Subject.t) (date : Date.t)
    (status : Status) : outcome :=
  let k := (Student.id student, Subject.id subject, date) in
  match objects_get table k with
  | Found i r => save_found table i r status
  | TooMany => Raised MultipleObjectsReturned
  | DoesNotExist =>
      match objects_create table student subject date status with
      | Saved table' created => Saved table' created
      | Raised e =>
          match objects_get table k with
          | Found i r => save_found table i r status
          | TooMany => Raised MultipleObjectsReturned
          | DoesNotExist => Raised e
          end
      end
  end.

(** A persistence layer in which the writes for the students whose id is in
    [losers] lose a race against another request and raise
    [IntegrityError]; every other write behaves as [update_or_create]. *)
Definition contended_update_or_create (losers : list Z)
    (table : list Attendance.row)
    (student : Student.t) (subject : Subject.t) (date : Date.t)
    (status : Status) : outcome :=
  if decide (Student.id student ∈ losers)
  then Raised IntegrityError
  else update_or_create table student subject date status.

(** The (student, subject, date) uniqueness invariant of a table. *)
Definition unique_together (table : list Attendance.row) : Prop :=
  NoDup (row_key <$> table).

(** ** Marking engine (views.py, mark_attendance) *)

Inductive level := SUCCESS | ERROR | WARNING.

(** [request.POST.get(f'student_{student.id}') == 'on'] *)
Definition is_present (POST : gmap string string) (student : Student.t) : bool :=
  bool_decide (POST !! ("student_" +:+ pretty (Student.id student)) = Some "on").

(** [status = 'P' if is_present else 'A'] *)
Definition status_of (POST : gmap string string) (student : Student.t) : Status :=
  if is_present POST student then P else A.

Section MarkingEngine.
(** The persistence call of the loop; the views use
    [Attendance.objects.update_or_create]. *)
Variable upsert :
  list Attendance.row → Student.t → Subject.t → Date.t → Status → outcome.

(** The [for student in students] loop with its two counters.  An
    [IntegrityError] is caught and counted; any other exception leaves
    the loop. *)
Fixpoint mark_loop (subject : Subject.t) (attendance_date : Date.t)
    (POST : gmap string string) (students : list Student.t)
    (table : list Attendance.row) (success_count error_count : nat)
  : exn + (list Attendance.row * nat * nat) :=
  match students with
  | [] => inr (table, success_count, error_count)
  | student :: rest =>
      let status := status_of POST student in
      match upsert table student subject attendance_date status with
      | Saved table' _ =>
          mark_loop subject attendance_date POST rest table'
                    (S success_count) error_count
      | Raised IntegrityError =>
          mark_loop subject attendance_date POST rest table
                    success_count (S error_count)
      | Raised e => inl e
      end
  end.

(** [markAttendance(subject, date, presence)]: the loop over the eligible
    roster, started with both counters at 0. *)
Definition markAttendance (db : DB) (subject : Subject.t)
    (attendance_date : Date.t) (POST : gmap string string)
  : exn + (list Attendance.row * nat * nat) :=
  mark_loop subject attendance_date POST (computeEligibleRoster db subject)
            (attendances db) 0 0.

Inductive response :=
  | Redirect (to : string)
  | Render (template : string) (students_list : list (Student.t * option Status)).

Record view_result := mk_view_result {
  new_table : list Attendance.row;
  messages : list (level * string);
  resp : response
}.

(** [existing_attendance]: status by student id of the rows of the given
    subject and date. *)
Definition existing_attendance (table : list Attendance.row)
    (subject : Subject.t) (attendance_date : Date.t) : gmap Z Status :=
  foldl (λ (m : gmap Z Status) att,
           <[Attendance.student_id att := Attendance.row_status att]> m) ∅
    (filter (λ att, Attendance.subject_id att = Subject.id subject
                    ∧ Attendance.row_date att = attendance_date) table).

(** The POST branch of [mark_attendance] once [subject] and
    [attendance_date] have been read from the request. *)
Definition mark_attendance (db : DB) (subject : Subject.t)
    (attendance_date : Date.t) (POST : gmap string string)
  : exn + view_result :=
  let students := computeEligibleRoster db subject in
  if decide (students = []) then
    inr (mk_view_result (attendances db)
           [(WARNING, "No students found for this subject.")]
           (Redirect "mark_attendance"))
  else if decide (is_Some (POST !! "submit_attendance")) then
    match markAttendance db subject attendance_date POST with
    | inl e => inl e
    | inr (table', success_count, error_count) =>
        inr (mk_view_result table'
               ((if decide (0 < success_count)%nat
                 then [(SUCCESS, "Attendance marked successfully for "
                                 +:+ pretty success_count +:+ " students!")]
                 else [])
                ++
                (if decide (0 < error_count)%nat
                 then [(ERROR, "Failed to mark attendance for "
                               +:+ pretty error_count +:+ " students.")]
                 else []))
               (Redirect "view_attendance"))
    end
  else
    let existing := existing_attendance (attendances db) subject attendance_date in
    inr (mk_view_result (attendances db) []
           (Render "attendance/mark_attendance_form.html"
                   ((λ s, (s, existing !! Student.id s)) <$> students))).
End MarkingEngine.

(** ** Python numbers

    An attendance percentage is the [int] 0 or a [float]; floats are
    binary64 values with the operations of IEEE 754. *)

Inductive number := PyInt (n : Z) | PyFloat (x : spec_float).

Definition prec : Z := 53.
Definition emax : Z := 1024.

(** An integer as an exact significand with exponent 0. *)
Definition exact_int (s : bool) (n : Z) : spec_float :=
  match n with
  | Z0 => S754_zero s
  | Zpos p => S754_finite s p 0
  | Zneg p => S754_finite (negb s) p 0
  end.

(** [float(n)] *)
Definition float_of_int (n : Z) : spec_float := binary_normalize prec emax n 0 false.

(** [a / b] on two [int]s: the correctly rounded quotient; [None] stands for
    [ZeroDivisionError]. *)
Definition int_truediv (a b : Z) : option spec_float :=
  if decide (b = 0) then None
  else Some (SFdiv prec emax (exact_int false a) (exact_int false b)).

(** [x * n] for a [float] [x] and an [int] [n] *)
Definition float_mul_int (x : spec_float) (n : Z) : spec_float :=
  SFmul prec emax x (float_of_int n).

(** The integer nearest to [n / d] for [0 < d], ties to the even one. *)
Definition nearest_even (n d : Z) : Z :=
  let q := n / d in
  match 2 * (n mod d) ?= d with
  | Lt => q
  | Gt => q + 1
  | Eq => if Z.even q then q else q + 1
  end.

(** [round(x, ndigits)] for a [float] [x] and [0 <= ndigits]: the exact
    binary value of [x] is rounded to [ndigits] decimals, ties to even, and
    the decimal obtained is converted back to the nearest float. *)
Definition float_round (x : spec_float) (ndigits : Z) : spec_float :=
  match x with
  | S754_finite s m e =>
      let scale := 10 ^ ndigits in
      let h := if decide (0 ≤ e)
               then Zpos m * 2 ^ e * scale
               else nearest_even (Zpos m * scale) (2 ^ (- e)) in
      SFdiv prec emax (exact_int s h) (exact_int false scale)
  | _ => x
  end.

(** [round((present / total) * 100, 2)] *)
Definition percent_expr (present total : Z) : option number :=
  q ← int_truediv present total;
  Some (PyFloat (float_round (float_mul_int q 100) 2)).

(** ** Aggregation engine *)

(** [Attendance.objects.filter(...).count()] *)
Definition count (cond : Attendance.row → Prop) `{∀ r, Decision (cond r)}
    (table : list Attendance.row) : Z :=
  Z.of_nat (length (filter cond table)).

(** The tail of [Student.get_attendance_percentage] on its local variables:
    [if total == 0: return 0], then the rounded quotient. *)
Definition method_percentage (present total : Z) : option number :=
  if decide (total = 0) then Some (PyInt 0) else percent_expr present total.

(** [Student.get_attendance_percentage(self, subject=None)] (models.py) *)
Definition get_attendance_percentage (table : list Attendance.row)
    (self : Student.t) (subject : option Subject.t) : option number :=
  match subject with
  | Some subject =>
      let total := count (λ r, Attendance.student_id r = Student.id self
                               ∧ Attendance.subject_id r = Subject.id subject) table in
      let present := count (λ r, Attendance.student_id r = Student.id self
                                 ∧ Attendance.subject_id r = Subject.id subject
                                 ∧ Attendance.row_status r = P) table in
      method_percentage present total
  | None =>
      let total := count (λ r, Attendance.student_id r = Student.id self) table in
      let present := count (λ r, Attendance.student_id r = Student.id self
                                 ∧ Attendance.row_status r = P) table in
      method_percentage present total
  end.

(** The guard used by the views: [if total > 0: round(...) else: 0]. *)
Definition view_percentage (present total : Z) : option number :=
  if decide (0 < total) then percent_expr present total else Some (PyInt 0).

(** One element of [subject_attendance] (views.py, dashboard). *)
Record subject_entry := mk_subject_entry {
  entry_subject : Subject.t;
  entry_total : Z;
  entry_present : Z;
  entry_absent : Z;
  entry_percentage : number
}.

(** The body of the [for subject in subjects] loop of [dashboard]. *)
Definition subject_breakdown_entry (table : list Attendance.row)
    (student : Student.t) (subject : Subject.t) : option subject_entry :=
  let total := count (λ r, Attendance.student_id r = Student.id student
                           ∧ Attendance.subject_id r = Subject.id subject) table in
  let present := count (λ r, Attendance.student_id r = Student.id student
                             ∧ Attendance.subject_id r = Subject.id subject
                             ∧ Attendance.row_status r = P) table in
  percentage ← view_percentage present total;
  Some (mk_subject_entry subject total present (total - present) percentage).

(** [Subject.objects.filter(department=student.department,
    year=student.year)], in the model's default ordering
    [Subject.Meta.ordering = ['subject_code']]. *)
Definition subjects_of (db : DB) (student : Student.t) : list Subject.t :=
  order_by Subject.subject_code
    (filter (λ subj, Subject.department subj = Student.department student
                     ∧ Subject.year subj = Student.year student) (subjects db)).

(** [perSubjectBreakdown(student)]: the list [subject_attendance] built by
    [dashboard]. *)
Definition perSubjectBreakdown (db : DB) (student : Student.t)
  : option (list subject_entry) :=
  mapM (subject_breakdown_entry (attendances db) student) (subjects_of db student).

(** The context [dashboard] builds for a student. *)
Record student_context := mk_student_context {
  attendance_percentage : number;
  total_classes : Z;
  present_classes : Z;
  absent_classes : Z;
  subject_attendance : list subject_entry
}.

(** The student branch of [dashboard] (views.py). *)
Definition dashboard (db : DB) (student : Student.t) : option student_context :=
  let total_classes :=
    count (λ r, Attendance.student_id r = Student.id student) (attendances db) in
  let present_classes :=
    count (λ r, Attendance.student_id r = Student.id student
                ∧ Attendance.row_status r = P) (attendances db) in
  percentage ← view_percentage present_classes total_classes;
  subject_attendance ← perSubjectBreakdown db student;
  Some (mk_student_context percentage total_classes present_classes
          (total_classes - present_classes) subject_attendance).

(** One element of [student_data] (views.py, attendance_percentage). *)
Record student_entry := mk_student_entry {
  data_student : Student.t;
  data_total_classes : Z;
  data_present_classes : Z;
  data_absent_classes : Z;
  data_percentage : number
}.

Definition student_data_entry (table : list Attendance.row)
    (student : Student.t) : option student_entry :=
  let total_classes :=
    count (λ r, Attendance.student_id r = Student.id student) table in
  let present_classes :=
    count (λ r, Attendance.student_id r = Student.id student
                ∧ Attendance.row_status r = P) table in
  percentage ← view_percentage present_classes total_classes;
  Some (mk_student_entry student total_classes present_classes
          (total_classes - present_classes) percentage).


(** ** The percentage as the specification words it *)

Inductive rounding_mode := half_even | half_up.

(** The integer nearest to [n / d] for [0 < d] under a rounding mode. *)
Definition round_div (mode : rounding_mode) (n d : Z) : Z :=
  match mode with
  | half_even => nearest_even n d
  | half_up => (2 * n + d) / (2 * d)
  end.

(** The float nearest to the decimal [h / 100]. *)
Definition float_of_hundredths (h : Z) : spec_float :=
  SFdiv prec emax (exact_int false h) (exact_int false 100).

(** [percentage(presentCount, totalCount)]: 0 when [totalCount] is 0,
    otherwise [100 * present / total] rounded to two decimals. *)
Definition spec_percentage (mode : rounding_mode) (presentCount totalCount : Z)
  : number :=
  if decide (totalCount = 0) then PyInt 0
  else PyFloat (float_of_hundredths
                  (round_div mode (100 * presentCount * 100) totalCount)).

(** ** Validation and the admin save path (models.py, admin.py) *)

(** [Model.clean_fields] for an attendance instance: the two foreign keys
    must reference existing rows. *)
Definition clean_fields (db : DB) (self : Attendance.t) : list string :=
  (if decide (Student.id (Attendance.student self) ∈ Student.id <$> students db)
   then []
   else ["student instance with id "
         +:+ pretty (Student.id (Attendance.student self))
         +:+ " does not exist."])
  ++
  (if decide (Subject.id (Attendance.subject self) ∈ Subject.id <$> subjects db)
   then []
   else ["subject instance with id "
         +:+ pretty (Subject.id (Attendance.subject self))
         +:+ " does not exist."]).

(** [Model.validate_unique]: the [unique_together] check against the rows
    other than the instance's own. *)
Definition validate_unique (table : list Attendance.row) (self : Attendance.t)
  : list string :=
  let others := match Attendance.pk self with
                | Some i => delete i table
                | None => table
                end in
  if decide (row_key (Attendance.to_row self) ∈ row_key <$> others)
  then ["Attendance with this Student, Subject and Date already exists."]
  else [].

(** [Model.full_clean]: the messages of the [ValidationError] raised, or the
    empty list when the instance is valid. *)
Definition full_clean (db : DB) (self : Attendance.t) : list string :=
  clean_fields db self
  ++ match Attendance_clean self with Some msg => [msg] | None => [] end
  ++ validate_unique (attendances db) self.

(** [Model.save]: UPDATE the instance's row when it has one, INSERT
    otherwise. *)
Definition Attendance_save (table : list Attendance.row) (self : Attendance.t)
  : exn + list Attendance.row :=
  match Attendance.pk self with
  | Some i =>
      if decide (i < length table)%nat
      then update_row table i (Attendance.to_row self)
      else insert_row table (Attendance.to_row self)
  | None => insert_row table (Attendance.to_row self)
  end.

(** [AttendanceAdmin.save_model]: [full_clean], then save (the inherited
    [save_model] calls [obj.save()]); any exception is caught and reported
    as an error message, modelled by the list of its messages. *)
Definition save_model (db : DB) (obj : Attendance.t)
  : DB * list (level * list string) :=
  match full_clean db obj with
  | [] =>
      match Attendance_save (attendances db) obj with
      | inr table' => (mkDB (students db) (subjects db) table', [])
      | inl IntegrityError => (db, [(ERROR, ["IntegrityError"])])
      | inl MultipleObjectsReturned => (db, [(ERROR, ["MultipleObjectsReturned"])])
      end
  | errors => (db, [(ERROR, errors)])
  end.

(** Tables that the write operations can produce from the empty table. *)
Inductive reachable : list Attendance.row → Prop :=
  | reachable_empty : reachable []
  | reachable_create table table' student subject date status created :
      reachable table →
      objects_create table student subject date status = Saved table' created →
      reachable table'
  | reachable_update_or_create table table' student subject date status created :
      reachable table →
      update_or_create table student subject date status = Saved table' created →
      reachable table'
  | reachable_save table table' obj :
      reachable table →
      Attendance_save table obj = inr table' →
      reachable table'.

(** ** Sample data

    The rows of the test fixtures (tests.py) and of the scenarios of the
    specification. *)

Definition date_2024_01_10 : Date.t := Date.mk 2024 1 10.

Definition student_21CSE001 : Student.t :=
  Student.mk 1 None "21CSE001" "Test Student" "CSE" 1.
Definition student_21CSE002 : Student.t :=
  Student.mk 2 None "21CSE002" "Second Student" "CSE" 1.
Definition student_21CSE003 : Student.t :=
  Student.mk 3 None "21CSE003" "Third Student" "CSE" 1.
Definition student_21ECE001 : Student.t :=
  Student.mk 4 None "21ECE001" "Fourth Student" "ECE" 1.

Definition subject_CS101 : Subject.t :=
  Subject.mk 1 "Data Structures" "CS101" "CSE" 1.
Definition subject_EC201 : Subject.t :=
  Subject.mk 2 "Signals" "EC201" "ECE" 2.

Definition sample_db : DB :=
  mkDB [student_21CSE003; student_21ECE001; student_21CSE001; student_21CSE002]
       [subject_EC201; subject_CS101]
       [].

(** The database of the marking scenario: one student, one subject. *)
Definition scenario_db : DB := mkDB [student_21CSE001] [subject_CS101] [].

(** A submitted form that ticks student 1 only. *)
Definition sample_POST : gmap string string :=
  <["submit_attendance" := ""]> (<["student_1" := "on"]> ∅).

(** A submitted form that ticks students 2 and 3. *)
Definition sample_POST' : gmap string string :=
  <["submit_attendance" := ""]> (<["student_2" := "on"]> (<["student_3" := "on"]> ∅)).

(** ** Closed forms used in the proofs *)

(** The table after an upsert of key [k] with status [st]: the rows with
    that key get the status, or a row is appended. *)
Definition overwrite (k : unique_key) (st : Status) (r : Attendance.row)
  : Attendance.row :=
  if decide (row_key r = k) then set_status st r else r.

Definition upsert_rows (table : list Attendance.row) (k : unique_key)
    (st : Status) : list Attendance.row :=
  if decide (k ∈ row_key <$> table)
  then overwrite k st <$> table
  else table ++ [Attendance.mkrow k.1.1 k.1.2 k.2 st].

(** The table after upserting every student of a list in turn. *)
Definition mark_rows (subject : Subject.t) (attendance_date : Date.t)
    (POST : gmap string string) (students : list Student.t)
    (table : list Attendance.row) : list Attendance.row :=
  foldl (λ t s, upsert_rows t (Student.id s, Subject.id subject, attendance_date)
                            (status_of POST s))
        table students.

#[global] Instance spec_float_eq_dec : EqDecision spec_float.
Proof. solve_decision. Defined.

#[global] Instance number_eq_dec : EqDecision number.
Proof. solve_decision. Defined.

(** Whether the percentage computed by the code is the half-even rounding of
    the exact quotient for every [present <= total < n]. *)
Definition agrees_below (n : Z) : bool :=
  forallb (λ total,
    forallb (λ present,
      bool_decide (method_percentage present total
                   = Some (spec_percentage half_even present total)))
      (seqZ 0 (total + 1)))
    (seqZ 0 n).

(** * Further parts of the application *)

(** ** Reopening the marking form (views.py, mark_attendance) *)

(** A submitted marking form as the browser encodes it: the checkbox of
    every student in [ids] is ticked (sent as ['on']), the other checkboxes
    are not sent, and the submit button is sent with some value. *)
Definition ticked_form (ids : list Z) (submit : string) : gmap string string :=
  <["submit_attendance" := submit]>
    (foldr (λ i (m : gmap string string), <["student_" +:+ pretty i := "on"]> m)
           ∅ ids).

(** [Subject.objects.get(id=subject_id)]: [None] is [Subject.DoesNotExist]. *)
Definition Subject_get (db : DB) (subject_id : Z) : option Subject.t :=
  snd <$> list_find (λ subj, Subject.id subj = subject_id) (subjects db).

(** [MarkAttendanceForm.__init__] (forms.py): the name and label of the
    checkbox fields added for the students of the subject; [subject_id] is
    [None] when the keyword is not given. *)
Definition MarkAttendanceForm_student_fields (db : DB) (subject_id : option Z)
  : list (string * string) :=
  match subject_id with
  | None => []
  | Some sid =>
      if decide (sid = 0) then []
      else
        match Subject_get db sid with
        | None => []
        | Some subject =>
            (λ student,
               ("student_" +:+ pretty (Student.id student),
                Student.roll_number student +:+ " - " +:+ Student.name student))
            <$> computeEligibleRoster db subject
        end
  end.

(** ** Validity of the ledger *)

(** Every row links an existing student and an existing subject that
    satisfy the eligibility rule. *)
Definition valid_ledger (db : DB) (table : list Attendance.row) : Prop :=
  ∀ r, r ∈ table →
    ∃ s subj, s ∈ students db ∧ subj ∈ subjects db
              ∧ Student.id s = Attendance.student_id r
              ∧ Subject.id subj = Attendance.subject_id r
              ∧ isEligible s subj = true.

(** ** Users and roles (views.py) *)

Module User.
(** The columns of [django.contrib.auth.models.User] the application
    uses; [password] is the stored hash. *)
Record t := mk {
  id : Z;
  username : string;
  password : string;
  first_name : string;
  is_staff : bool;
  is_superuser : bool
}.
#[global] Instance eq_dec : EqDecision t.
Proof. solve_decision. Defined.
End User.

(** [is_admin(user)] *)
Definition is_admin (user : User.t) : bool :=
  User.is_staff user || User.is_superuser user.

(** [user.student]: the student row whose one-to-one link points to the
    user, if any. *)
Definition user_student (students : list Student.t) (user : User.t)
  : option Student.t :=
  snd <$> list_find (λ s, Student.user s = Some (User.id user)) students.

(** [is_student(user)] *)
Definition is_student (students : list Student.t) (user : User.t) : bool :=
  bool_decide (is_Some (user_student students user)).

(** ** Dates and the ordering of attendance records *)

(** [a < b] on [datetime.date]: by year, then month, then day. *)
Definition date_lt (a b : Date.t) : Prop :=
  Date.year a < Date.year b
  ∨ (Date.year a = Date.year b
     ∧ (Date.month a < Date.month b
        ∨ (Date.month a = Date.month b ∧ Date.day a < Date.day b))).

Definition date_le (a b : Date.t) : Prop := date_lt a b ∨ a = b.

#[global] Instance date_lt_dec a b : Decision (date_lt a b).
Proof. unfold date_lt. apply _. Defined.

#[global] Instance date_le_dec a b : Decision (date_le a b).
Proof. unfold date_le. apply _. Defined.

(** The roll number reached through the [student] foreign key of a row. *)
Definition roll_number_of (students : list Student.t) (student_id : Z) : string :=
  default ""
    (Student.roll_number
       <$> (snd <$> list_find (λ s, Student.id s = student_id) students)).

(** [order_by('-date', 'student__roll_number')]: later dates first, and
    within a date by the student's roll number. *)
Definition recent_first (students : list Student.t) : relation Attendance.row :=
  λ r1 r2,
    date_lt (Attendance.row_date r2) (Attendance.row_date r1)
    ∨ (Attendance.row_date r1 = Attendance.row_date r2
       ∧ str_le (roll_number_of students (Attendance.student_id r1))
                (roll_number_of students (Attendance.student_id r2))).

#[global] Instance recent_first_dec students r1 r2 :
  Decision (recent_first students r1 r2).
Proof. unfold recent_first. apply _. Defined.

(** ** Viewing attendance records (views.py, view_attendance) *)

(** The GET parameters of [view_attendance] after conversion; a parameter
    is [None] when it is absent or empty. *)
Record attendance_query := mk_attendance_query {
  query_student : option Z;
  query_subject : option Z;
  query_date_from : option Date.t;
  query_date_to : option Date.t
}.

(** The context [view_attendance] renders; [with_filter_form] tells whether
    the filter form is given. *)
Record attendance_page := mk_attendance_page {
  attendance_records : list Attendance.row;
  with_filter_form : bool;
  page_is_admin : bool;
  total_count : Z;
  present_count : Z;
  absent_count : Z
}.

(** [view_attendance(request)] *)
Definition view_attendance (db : DB) (user : User.t) (GET : attendance_query)
  : attendance_page :=
  let attendance_records :=
    merge_sort (recent_first (students db)) (attendances db) in
  let attendance_records :=
    match user_student (students db) user with
    | Some student =>
        filter (λ r, Attendance.student_id r = Student.id student)
               attendance_records
    | None => attendance_records
    end in
  let attendance_records :=
    match query_student GET with
    | Some student_id =>
        filter (λ r, Attendance.student_id r = student_id) attendance_records
    | None => attendance_records
    end in
  let attendance_records :=
    match query_subject GET with
    | Some subject_id =>
        filter (λ r, Attendance.subject_id r = subject_id) attendance_records
    | None => attendance_records
    end in
  let attendance_records :=
    match query_date_from GET with
    | Some date_from =>
        filter (λ r, date_le date_from (Attendance.row_date r)) attendance_records
    | None => attendance_records
    end in
  let attendance_records :=
    match query_date_to GET with
    | Some date_to =>
        filter (λ r, date_le (Attendance.row_date r) date_to) attendance_records
    | None => attendance_records
    end in
  mk_attendance_page attendance_records (is_admin user) (is_admin user)
    (Z.of_nat (length attendance_records))
    (Z.of_nat (length (filter (λ r, Attendance.row_status r = P) attendance_records)))
    (Z.of_nat (length (filter (λ r, Attendance.row_status r = A) attendance_records))).

(** ** Listing students and subjects (views.py) *)

Section Listing.
(** [column__icontains=search_query]: case-insensitive containment as the
    database decides it. *)
Variable icontains : string → string → bool.


(** [subject_list(request)]: the queryset [subjects]. *)
Definition subject_list (db : DB) (search_query department : string)
    (year : option Z) : list Subject.t :=
  let subjects := order_by Subject.subject_code (subjects db) in
  let subjects :=
    if decide (search_query = "") then subjects
    else filter (λ s, icontains (Subject.subject_code s) search_query = true
                      ∨ icontains (Subject.subject_name s) search_query = true
                      ∨ icontains (Subject.department s) search_query = true)
                subjects in
  let subjects :=
    if decide (department = "") then subjects
    else filter (λ s, Subject.department s = department) subjects in
  match year with
  | Some y => filter (λ s, Subject.year s = y) subjects
  | None => subjects
  end.
End Listing.

(** ** Sums of counts *)

Definition sum_Z (l : list Z) : Z := foldr Z.add 0 l.

(** ** More sample data *)

(** A student row linked to a login account, and that account. *)
Definition student_with_login : Student.t :=
  Student.mk 1 (Some 10) "21CSE001" "Test Student" "CSE" 1.

Definition user_21CSE001 : User.t :=
  User.mk 10 "21cse001" "pbkdf2$x" "Test" true false.

Definition login_db : DB :=
  mkDB [student_with_login; student_21CSE002] [subject_CS101]
       [Attendance.mkrow 1 1 date_2024_01_10 P;
        Attendance.mkrow 2 1 date_2024_01_10 A].

(** * Properties *)

(** ** Order on strings *)

Lemma ascii_compare_Lt_trans a b c :
  Ascii.compare a b = Lt → Ascii.compare b c = Lt → Ascii.compare a c = Lt.
Proof.
  unfold Ascii.compare. rewrite !N.compare_lt_iff. lia.
Qed.

Lemma string_compare_refl s : String.compare s s = Eq.
Proof.
  induction s as [|c s IH]; simpl; [done|].
  unfold Ascii.compare. by rewrite N.compare_refl.
Qed.

Lemma string_compare_Lt_trans s1 : ∀ s2 s3,
  String.compare s1 s2 = Lt → String.compare s2 s3 = Lt →
  String.compare s1 s3 = Lt.
Proof.
  induction s1 as [|a s1 IH]; intros [|b s2] [|c s3]; simpl; try done.
  destruct (Ascii.compare a b) eqn:Hab; try done;
    destruct (Ascii.compare b c) eqn:Hbc; try done; intros H1 H2.
  - apply Ascii.compare_eq_iff in Hab, Hbc. subst.
    unfold Ascii.compare. rewrite N.compare_refl. eauto.
  - apply Ascii.compare_eq_iff in Hab. subst. by rewrite Hbc.
  - apply Ascii.compare_eq_iff in Hbc. subst. by rewrite Hab.
  - by rewrite (ascii_compare_Lt_trans _ _ _ Hab Hbc).
Qed.

#[global] Instance str_le_total : Total str_le.
Proof. intros a b. apply String.leb_total. Qed.

#[global] Instance str_le_refl : Reflexive str_le.
Proof. intros a. unfold str_le, String.leb. by rewrite string_compare_refl. Qed.

#[global] Instance str_le_trans : Transitive str_le.
Proof.
  intros a b c. unfold str_le, String.leb.
  destruct (String.compare a b) eqn:Hab; try done;
    destruct (String.compare b c) eqn:Hbc; try done; intros _ _.
  - apply String.compare_eq_iff in Hab. subst. by rewrite Hbc.
  - apply String.compare_eq_iff in Hab. subst. by rewrite Hbc.
  - apply String.compare_eq_iff in Hbc. subst. by rewrite Hab.
  - by rewrite (string_compare_Lt_trans _ _ _ Hab Hbc).
Qed.

#[global] Instance str_le_antisym : AntiSymm (=) str_le.
Proof. intros a b. apply String.leb_antisym. Qed.

#[global] Instance by_column_total {A} (col : A → string) : Total (by_column col).
Proof. intros x y. apply str_le_total. Qed.

#[global] Instance by_column_trans {A} (col : A → string) :
  Transitive (by_column col).
Proof. intros x y z. apply str_le_trans. Qed.


(** ** Eligibility rule and eligible roster *)

Lemma clean_related_None s subj :
  clean_related s subj = None ↔
  Student.department s = Subject.department subj
  ∧ Student.year s = Subject.year subj.
Proof.
  unfold clean_related.
  destruct (decide (Student.department s ≠ Subject.department subj)) as [Hd|Hd].
  { split; [done|]. by intros [? _]. }
  destruct (decide (Student.year s ≠ Subject.year subj)) as [Hy|Hy].
  { split; [done|]. by intros [_ ?]. }
  apply dec_stable in Hd, Hy. done.
Qed.

Lemma isEligible_spec s subj :
  isEligible s subj = true ↔
  Student.department s = Subject.department subj
  ∧ Student.year s = Subject.year subj.
Proof.
  unfold isEligible. rewrite bool_decide_eq_true. apply clean_related_None.
Qed.

Lemma order_by_Permutation {A} (col : A → string) (rows : list A) :
  order_by col rows ≡ₚ rows.
Proof. apply merge_sort_Permutation. Qed.

Lemma order_by_sorted {A} (col : A → string) (rows : list A) :
  StronglySorted (by_column col) (order_by col rows).
Proof. apply StronglySorted_merge_sort; apply _. Qed.

Lemma elem_of_roster db subject s :
  s ∈ computeEligibleRoster db subject ↔
  s ∈ students db ∧ isEligible s subject = true.
Proof.
  unfold computeEligibleRoster.
  rewrite order_by_Permutation, list_elem_of_filter, isEligible_spec. tauto.
Qed.

Lemma roster_nil db subject :
  (∀ s, s ∈ students db → isEligible s subject = false) →
  computeEligibleRoster db subject = [].
Proof.
  intros Hno. destruct (computeEligibleRoster db subject) as [|s l] eqn:E; [done|].
  assert (Hs : s ∈ computeEligibleRoster db subject) by (rewrite E; left).
  apply elem_of_roster in Hs as [Hin Hel]. rewrite (Hno s Hin) in Hel. done.
Qed.

Lemma roster_ids_NoDup db subject :
  NoDup (Student.id <$> students db) →
  NoDup (Student.id <$> computeEligibleRoster db subject).
Proof.
  intros Hnd. unfold computeEligibleRoster.
  rewrite order_by_Permutation.
  apply (sublist_NoDup _ (Student.id <$> students db)); [done|].
  apply fmap_sublist, sublist_filter.
Qed.

(** C1. The eligibility rule holds iff department and year both match; the
    eligible roster of a subject holds exactly the students of the student
    table that satisfy it (as many times as the table does), and it is
    ordered by roll number ascending. *)
Theorem C1_eligible_roster (db : DB) (subject : Subject.t) :
  (∀ s, isEligible s subject = true ↔
        Student.department s = Subject.department subject
        ∧ Student.year s = Subject.year subject)
  ∧ (∀ s, s ∈ computeEligibleRoster db subject ↔
          s ∈ students db
          ∧ Student.department s = Subject.department subject
          ∧ Student.year s = Subject.year subject)
  ∧ computeEligibleRoster db subject
      ≡ₚ filter (λ s, isEligible s subject = true) (students db)
  ∧ StronglySorted (λ s1 s2, str_le (Student.roll_number s1) (Student.roll_number s2))
                   (computeEligibleRoster db subject).
Proof.
  split_and!.
  - intros s. apply isEligible_spec.
  - intros s. rewrite elem_of_roster, isEligible_spec. done.
  - unfold computeEligibleRoster. rewrite order_by_Permutation.
    erewrite list_filter_iff; [done|].
    intros s. by rewrite isEligible_spec.
  - apply (order_by_sorted Student.roll_number).
Qed.

(** ** Attendance ledger *)

Lemma matching_from_absent k rows i :
  k ∉ row_key <$> rows → matching_from k rows i = [].
Proof.
  revert i. induction rows as [|r rows IH]; intros i Hk; simpl; [done|].
  rewrite fmap_cons, not_elem_of_cons in Hk. destruct Hk as [Hne Hk].
  rewrite decide_False by done. by apply IH.
Qed.

Lemma matching_from_unique rows : ∀ i j r,
  unique_together rows → rows !! j = Some r →
  matching_from (row_key r) rows i = [((i + j)%nat, r)].
Proof.
  induction rows as [|r0 rows IH]; intros i j r Hnd Hj; [done|].
  unfold unique_together in Hnd. rewrite fmap_cons, NoDup_cons in Hnd.
  destruct Hnd as [Hnotin Hnd].
  destruct j as [|j]; simpl in *.
  - injection Hj as ->. rewrite decide_True by done.
    rewrite matching_from_absent by done. by rewrite Nat.add_0_r.
  - assert (row_key r ∈ row_key <$> rows) as Hin
      by (eapply list_elem_of_fmap_2, list_elem_of_lookup_2; eauto).
    rewrite decide_False by (intros Heq; by rewrite Heq in Hnotin).
    rewrite (IH (S i) j r) by done. do 2 f_equal. lia.
Qed.

Lemma objects_get_absent table k :
  k ∉ row_key <$> table → objects_get table k = DoesNotExist.
Proof. intros Hk. unfold objects_get. by rewrite matching_from_absent. Qed.

Lemma objects_get_present table j r :
  unique_together table → table !! j = Some r →
  objects_get table (row_key r) = Found j r.
Proof.
  intros Hnd Hj. unfold objects_get.
  by rewrite (matching_from_unique table 0 j r).
Qed.

Lemma key_elem_of_lookup (table : list Attendance.row) k :
  k ∈ row_key <$> table → ∃ j r, table !! j = Some r ∧ row_key r = k.
Proof.
  intros (r & -> & Hr)%list_elem_of_fmap.
  apply list_elem_of_lookup_1 in Hr as [j Hj]. eauto.
Qed.

(** At most one row per key: two positions holding the same key coincide. *)
Lemma unique_together_lookup table i j r r' :
  unique_together table →
  table !! i = Some r → table !! j = Some r' → row_key r = row_key r' → i = j.
Proof.
  intros Hnd Hi Hj Hk.
  apply (NoDup_lookup (row_key <$> table) i j (row_key r)); [done| |].
  - by rewrite list_lookup_fmap, Hi.
  - by rewrite list_lookup_fmap, Hj, Hk.
Qed.

Lemma key_not_in_delete table j r :
  unique_together table → table !! j = Some r →
  row_key r ∉ row_key <$> delete j table.
Proof.
  intros Hnd Hj (r' & Hk & Hr')%list_elem_of_fmap.
  apply list_elem_of_lookup_1 in Hr' as [i Hi].
  rewrite list_lookup_delete in Hi.
  case_decide as Hlt.
  - assert (i = j) by eauto using unique_together_lookup. lia.
  - assert (S i = j) by eauto using unique_together_lookup. lia.
Qed.

(** Overwriting the status of the row at [j] is the same as overwriting the
    status of every row with its key, when keys are unique. *)
Lemma insert_set_status table j r st :
  unique_together table → table !! j = Some r →
  <[j:=set_status st r]> table = overwrite (row_key r) st <$> table.
Proof.
  intros Hnd Hj. apply list_eq. intros i.
  rewrite list_lookup_fmap.
  destruct (decide (j = i)) as [->|Hne].
  - rewrite list_lookup_insert_eq by (by eapply lookup_lt_Some).
    rewrite Hj. simpl. unfold overwrite. by rewrite decide_True.
  - rewrite list_lookup_insert_ne by done.
    destruct (table !! i) as [r'|] eqn:Hi; [|done]. simpl.
    unfold overwrite. rewrite decide_False; [done|].
    intros Hk. apply Hne. symmetry. eauto using unique_together_lookup.
Qed.

Lemma upsert_rows_keys table k st :
  row_key <$> upsert_rows table k st
  = if decide (k ∈ row_key <$> table) then row_key <$> table
    else (row_key <$> table) ++ [k].
Proof.
  unfold upsert_rows. destruct (decide (k ∈ row_key <$> table)) as [Hin|Hnin].
  - rewrite <-list_fmap_compose. apply list_fmap_ext.
    intros i r _. simpl. unfold overwrite. by destruct (decide (row_key r = k)).
  - rewrite fmap_snoc. by destruct k as [[??]?].
Qed.

Lemma upsert_rows_unique table k st :
  unique_together table → unique_together (upsert_rows table k st).
Proof.
  unfold unique_together. rewrite upsert_rows_keys. intros Hnd.
  case_decide; [done|].
  apply NoDup_app. split_and!; [done| |apply NoDup_singleton].
  intros x Hx ->%list_elem_of_singleton. done.
Qed.

Lemma upsert_rows_key_in table k st :
  k ∈ row_key <$> upsert_rows table k st.
Proof.
  rewrite upsert_rows_keys. case_decide; [done|].
  apply elem_of_app. right. by apply list_elem_of_singleton.
Qed.

Lemma upsert_rows_length table k st :
  length (upsert_rows table k st)
  = if decide (k ∈ row_key <$> table) then length table else S (length table).
Proof.
  unfold upsert_rows. destruct (decide (k ∈ row_key <$> table)) as [Hin|Hnin].
  - by rewrite length_fmap.
  - rewrite length_app. simpl. lia.
Qed.

(** With unique keys, the create path inserts and the update path
    overwrites: [update_or_create] never raises. *)
Lemma update_or_create_upsert table student subject date st :
  unique_together table →
  update_or_create table student subject date st
  = Saved (upsert_rows table (Student.id student, Subject.id subject, date) st)
          (bool_decide ((Student.id student, Subject.id subject, date)
                        ∉ row_key <$> table)).
Proof.
  intros Hnd. unfold update_or_create, upsert_rows.
  destruct (decide ((Student.id student, Subject.id subject, date)
                    ∈ row_key <$> table)) as [Hin|Hnin].
  - destruct (key_elem_of_lookup _ _ Hin) as (j & r & Hj & Hk).
    rewrite bool_decide_eq_false_2 by (by intros ?).
    rewrite <-Hk. rewrite (objects_get_present table j r) by done.
    unfold save_found, update_row.
    change (row_key (set_status st r)) with (row_key r).
    rewrite (decide_False (P := row_key r ∈ row_key <$> delete j table))
      by (by apply key_not_in_delete).
    rewrite (decide_True (P := row_key r ∈ row_key <$> table))
      by (by rewrite Hk).
    by rewrite insert_set_status.
  - rewrite objects_get_absent by done.
    unfold objects_create, insert_row. simpl.
    rewrite !decide_False by done.
    by rewrite bool_decide_eq_true_2.
Qed.

Lemma objects_create_duplicate table student subject date st :
  (Student.id student, Subject.id subject, date) ∈ row_key <$> table →
  objects_create table student subject date st = Raised IntegrityError.
Proof.
  intros Hin. unfold objects_create, insert_row. simpl.
  by rewrite decide_True.
Qed.

Lemma insert_row_unique table r table' :
  unique_together table → insert_row table r = inr table' →
  unique_together table'.
Proof.
  unfold insert_row, unique_together. intros Hnd. case_decide; [done|].
  intros [= <-]. rewrite fmap_snoc.
  apply NoDup_app. split_and!; [done| |apply NoDup_singleton].
  intros x Hx ->%list_elem_of_singleton. done.
Qed.

Lemma update_row_unique table i r table' :
  unique_together table → update_row table i r = inr table' →
  unique_together table'.
Proof.
  unfold update_row, unique_together. intros Hnd. case_decide as Hk; [done|].
  intros [= <-].
  destruct (decide (i < length table)%nat) as [Hlt|Hge];
    [|by rewrite list_insert_ge by lia].
  rewrite list_fmap_insert, insert_take_drop by (by rewrite length_fmap).
  rewrite list_fmap_delete, delete_take_drop in Hk.
  rewrite <-(take_drop (S i) (row_key <$> table)) in Hnd.
  rewrite (take_S_r _ _ (row_key (default r (table !! i)))) in Hnd.
  2:{ rewrite list_lookup_fmap. destruct (table !! i) eqn:E; [done|].
      apply lookup_ge_None in E. lia. }
  rewrite <-app_assoc in Hnd. simpl in Hnd.
  apply NoDup_app in Hnd as (Hnd1 & Hdisj & Hnd2).
  apply NoDup_cons in Hnd2 as [_ Hnd2].
  apply not_elem_of_app in Hk as [Hk1 Hk2].
  apply NoDup_app. split_and!; [done| |by apply NoDup_cons].
  intros x Hx [->|Hx']%elem_of_cons; [done|].
  apply (Hdisj x Hx). by right.
Qed.

Lemma Attendance_save_unique table obj table' :
  unique_together table → Attendance_save table obj = inr table' →
  unique_together table'.
Proof.
  unfold Attendance_save. intros Hnd.
  destruct (Attendance.pk obj); [case_decide|];
    eauto using insert_row_unique, update_row_unique.
Qed.

Lemma reachable_unique table : reachable table → unique_together table.
Proof.
  induction 1 as [|table table' student subject date st created _ IH Hc
                  |table table' student subject date st created _ IH Hu
                  |table table' obj _ IH Hs].
  - apply NoDup_nil_2.
  - unfold objects_create in Hc.
    destruct (insert_row table _) as [e|t] eqn:Hins; [done|].
    injection Hc as <- _. eauto using insert_row_unique.
  - rewrite update_or_create_upsert in Hu by done.
    injection Hu as <- _. by apply upsert_rows_unique.
  - eauto using Attendance_save_unique.
Qed.

(** ** Upsert algebra *)

Lemma overwrite_key k st r : row_key (overwrite k st r) = row_key r.
Proof. unfold overwrite. by case_decide. Qed.

Lemma overwrite_other k st r : row_key r ≠ k → overwrite k st r = r.
Proof. intros Hne. unfold overwrite. by rewrite decide_False. Qed.

Lemma overwrite_same k st r :
  row_key r = k → overwrite k st r = Attendance.mkrow k.1.1 k.1.2 k.2 st.
Proof. intros <-. unfold overwrite. by rewrite decide_True. Qed.

Lemma overwrite_overwrite k a b r :
  overwrite k b (overwrite k a r) = overwrite k b r.
Proof.
  destruct (decide (row_key r = k)) as [Hk|Hk].
  - rewrite (overwrite_same k a r), (overwrite_same k b r) by done.
    apply overwrite_same. by destruct k as [[??]?].
  - by rewrite (overwrite_other k a r).
Qed.

Lemma overwrite_comm k1 k2 a b r :
  k1 ≠ k2 →
  overwrite k2 b (overwrite k1 a r) = overwrite k1 a (overwrite k2 b r).
Proof.
  intros Hne.
  destruct (decide (row_key r = k1)) as [H1|H1];
    destruct (decide (row_key r = k2)) as [H2|H2]; [congruence| | |].
  - rewrite (overwrite_other k2 b r) by done.
    apply overwrite_other. by rewrite overwrite_key.
  - rewrite (overwrite_other k1 a r) by done.
    symmetry. apply overwrite_other. by rewrite overwrite_key.
  - by rewrite (overwrite_other k1 a r), !(overwrite_other k2 b r),
       (overwrite_other k1 a r).
Qed.

Lemma overwrite_absent k st (table : list Attendance.row) :
  k ∉ row_key <$> table → overwrite k st <$> table = table.
Proof.
  intros Hk. rewrite <-(list_fmap_id table) at 2.
  apply list_fmap_ext. intros i r Hi. apply overwrite_other.
  intros <-. apply Hk. eapply list_elem_of_fmap_2, list_elem_of_lookup_2; eauto.
Qed.

Lemma upsert_rows_present table k st :
  k ∈ row_key <$> table → upsert_rows table k st = overwrite k st <$> table.
Proof. intros Hk. unfold upsert_rows. by rewrite decide_True. Qed.

Lemma upsert_rows_absent table k st :
  k ∉ row_key <$> table →
  upsert_rows table k st = table ++ [Attendance.mkrow k.1.1 k.1.2 k.2 st].
Proof. intros Hk. unfold upsert_rows. by rewrite decide_False. Qed.

Lemma overwrite_keys k st (table : list Attendance.row) :
  row_key <$> (overwrite k st <$> table) = row_key <$> table.
Proof.
  rewrite <-list_fmap_compose. apply list_fmap_ext.
  intros i r _. apply overwrite_key.
Qed.

(** A second upsert of the same key replaces the first. *)
Lemma upsert_rows_twice table k a b :
  upsert_rows (upsert_rows table k a) k b = upsert_rows table k b.
Proof.
  rewrite (upsert_rows_present (upsert_rows table k a))
    by apply upsert_rows_key_in.
  destruct (decide (k ∈ row_key <$> table)) as [Hk|Hk].
  - rewrite !upsert_rows_present by done.
    rewrite <-list_fmap_compose. apply list_fmap_ext.
    intros i r _. apply overwrite_overwrite.
  - rewrite !upsert_rows_absent by done.
    rewrite fmap_app, overwrite_absent by done. simpl.
    rewrite (overwrite_same k b) by (by destruct k as [[??]?]). done.
Qed.

(** An update of an existing key commutes with an upsert of another key. *)
Lemma upsert_rows_comm table k1 k2 a b :
  k1 ≠ k2 → k2 ∈ row_key <$> table →
  upsert_rows (upsert_rows table k1 a) k2 b
  = upsert_rows (upsert_rows table k2 b) k1 a.
Proof.
  intros Hne Hk2.
  rewrite (upsert_rows_present table k2) by done.
  destruct (decide (k1 ∈ row_key <$> table)) as [Hk1|Hk1].
  - rewrite (upsert_rows_present table k1) by done.
    rewrite !upsert_rows_present by (by rewrite overwrite_keys).
    rewrite <-!list_fmap_compose. apply list_fmap_ext.
    intros i r _. by apply overwrite_comm.
  - rewrite (upsert_rows_absent table k1) by done.
    rewrite (upsert_rows_absent (overwrite k2 b <$> table))
      by (by rewrite overwrite_keys).
    rewrite upsert_rows_present
      by (rewrite fmap_app; apply elem_of_app; by left).
    rewrite fmap_app. simpl. rewrite (overwrite_other k2 b); [done|].
    by destruct k1 as [[??]?].
Qed.

Lemma upsert_rows_elem table k st :
  Attendance.mkrow k.1.1 k.1.2 k.2 st ∈ upsert_rows table k st.
Proof.
  destruct (decide (k ∈ row_key <$> table)) as [Hk|Hk].
  - rewrite upsert_rows_present by done.
    apply list_elem_of_fmap in Hk as (r & -> & Hr).
    rewrite <-(overwrite_same (row_key r) st r) by done.
    by apply list_elem_of_fmap_2.
  - rewrite upsert_rows_absent by done. apply elem_of_app. right.
    by apply list_elem_of_singleton.
Qed.

Lemma upsert_rows_preserve table k st r :
  r ∈ table → row_key r ≠ k ∨ Attendance.row_status r = st →
  r ∈ upsert_rows table k st.
Proof.
  intros Hr Hor. unfold upsert_rows. case_decide.
  - assert (overwrite k st r = r) as <-; [|by apply list_elem_of_fmap_2].
    destruct (decide (row_key r = k)) as [Hk|Hk];
      [|by apply overwrite_other].
    destruct Hor as [?|Hst]; [done|].
    rewrite overwrite_same by done. subst. by destruct r.
  - apply elem_of_app. by left.
Qed.

(** Rows of students outside [ids] are not touched by an upsert for a
    student in [ids]. *)
Lemma upsert_rows_frame (ids : list Z) table k st :
  k.1.1 ∈ ids →
  filter (λ r, Attendance.student_id r ∉ ids) (upsert_rows table k st)
  = filter (λ r, Attendance.student_id r ∉ ids) table.
Proof.
  intros Hk. unfold upsert_rows. case_decide.
  - clear H. induction table as [|r table IH]; [done|].
    rewrite fmap_cons, !filter_cons, IH.
    destruct (decide (row_key r = k)) as [Hr|Hr].
    + rewrite overwrite_same by done. simpl.
      rewrite !decide_False; [done| |]; intros Hn; apply Hn; [|done].
      by rewrite <-Hr in Hk.
    + by rewrite overwrite_other.
  - rewrite filter_app, filter_cons, decide_False by (simpl; by intros ?).
    by rewrite filter_nil, app_nil_r.
Qed.

(** ** Marking engine *)

Lemma status_of_id POST s s' :
  Student.id s = Student.id s' → status_of POST s = status_of POST s'.
Proof. intros Hid. unfold status_of, is_present. by rewrite Hid. Qed.

Lemma status_of_on POST s :
  POST !! ("student_" +:+ pretty (Student.id s)) = Some "on" →
  status_of POST s = P.
Proof.
  intros Hon. unfold status_of, is_present. by rewrite bool_decide_eq_true_2.
Qed.

Lemma status_of_not_on POST s :
  POST !! ("student_" +:+ pretty (Student.id s)) ≠ Some "on" →
  status_of POST s = A.
Proof.
  intros Hoff. unfold status_of, is_present. by rewrite bool_decide_eq_false_2.
Qed.

Section MarkRows.
Context (subject : Subject.t) (attendance_date : Date.t).

Let key (s : Student.t) : unique_key :=
  (Student.id s, Subject.id subject, attendance_date).

Lemma mark_rows_cons POST s students table :
  mark_rows subject attendance_date POST (s :: students) table
  = mark_rows subject attendance_date POST students
      (upsert_rows table (key s) (status_of POST s)).
Proof. done. Qed.

Lemma mark_rows_unique POST students : ∀ table,
  unique_together table →
  unique_together (mark_rows subject attendance_date POST students table).
Proof.
  induction students as [|s students IH]; intros table Hnd; [done|].
  rewrite mark_rows_cons. by apply IH, upsert_rows_unique.
Qed.

Lemma mark_rows_preserve POST students : ∀ table r,
  r ∈ table →
  (∀ s, s ∈ students →
        row_key r ≠ key s ∨ Attendance.row_status r = status_of POST s) →
  r ∈ mark_rows subject attendance_date POST students table.
Proof.
  induction students as [|s students IH]; intros table r Hr Hall; [done|].
  rewrite mark_rows_cons. apply IH.
  - apply upsert_rows_preserve; [done|]. apply Hall. by left.
  - intros s' Hs'. apply Hall. by right.
Qed.

(** Every student of the list has a row with the status read from the
    request. *)
Lemma mark_rows_elem POST students : ∀ table s,
  s ∈ students →
  Attendance.mkrow (Student.id s) (Subject.id subject) attendance_date
                   (status_of POST s)
  ∈ mark_rows subject attendance_date POST students table.
Proof.
  induction students as [|s0 students IH]; intros table s Hs.
  { by apply elem_of_nil in Hs. }
  rewrite mark_rows_cons.
  apply elem_of_cons in Hs as [->|Hs]; [|by apply IH].
  apply mark_rows_preserve; [apply (upsert_rows_elem table (key s0))|].
  intros s' _. simpl.
  destruct (decide (Student.id s0 = Student.id s')) as [Hid|Hid].
  - right. by apply status_of_id.
  - left. unfold row_key, key. simpl. congruence.
Qed.

Lemma mark_rows_upsert_comm POST students : ∀ table k st,
  k ∈ row_key <$> table →
  (∀ s, s ∈ students → key s ≠ k) →
  upsert_rows (mark_rows subject attendance_date POST students table) k st
  = mark_rows subject attendance_date POST students (upsert_rows table k st).
Proof.
  induction students as [|s students IH]; intros table k st Hk Hne; [done|].
  rewrite !mark_rows_cons.
  rewrite IH.
  - rewrite upsert_rows_comm; [done| |done]. apply Hne. by left.
  - rewrite upsert_rows_keys. case_decide; [done|].
    apply elem_of_app. by left.
  - intros s' Hs'. apply Hne. by right.
Qed.

(** Marking a list of students with one request and then with another
    leaves the table the second request alone produces. *)
Lemma mark_rows_overwrite POST1 POST2 students : ∀ table,
  NoDup (Student.id <$> students) →
  mark_rows subject attendance_date POST2 students
    (mark_rows subject attendance_date POST1 students table)
  = mark_rows subject attendance_date POST2 students table.
Proof.
  induction students as [|s students IH]; intros table Hnd; [done|].
  rewrite fmap_cons, NoDup_cons in Hnd. destruct Hnd as [Hs Hnd].
  rewrite !mark_rows_cons.
  rewrite (mark_rows_upsert_comm POST1 students
             (upsert_rows table (key s) (status_of POST1 s))
             (key s) (status_of POST2 s)).
  - rewrite upsert_rows_twice. by apply IH.
  - apply upsert_rows_key_in.
  - intros s' Hs' [= Hid]. apply Hs. rewrite <-Hid.
    by apply list_elem_of_fmap_2.
Qed.

Lemma mark_rows_frame (ids : list Z) POST students : ∀ table,
  (∀ s, s ∈ students → Student.id s ∈ ids) →
  filter (λ r, Attendance.student_id r ∉ ids)
         (mark_rows subject attendance_date POST students table)
  = filter (λ r, Attendance.student_id r ∉ ids) table.
Proof.
  induction students as [|s students IH]; intros table Hids; [done|].
  rewrite mark_rows_cons, IH by (intros s' Hs'; apply Hids; by right).
  apply upsert_rows_frame. simpl. apply Hids. by left.
Qed.

(** Without interference the loop writes every student and counts each
    write as a success. *)
Lemma mark_loop_sequential POST students : ∀ table sc ec,
  unique_together table →
  mark_loop update_or_create subject attendance_date POST students table sc ec
  = inr (mark_rows subject attendance_date POST students table,
         (sc + length students)%nat, ec).
Proof.
  induction students as [|s students IH]; intros table sc ec Hnd; simpl.
  { by rewrite Nat.add_0_r. }
  rewrite update_or_create_upsert by done.
  rewrite IH by (by apply upsert_rows_unique).
  replace (S sc + length students)%nat
    with (sc + S (length students))%nat by lia.
  done.
Qed.

(** With losers of races, the loop writes the other students and counts
    one failure per loser. *)
Lemma mark_loop_contended losers POST students : ∀ table sc ec,
  unique_together table →
  mark_loop (contended_update_or_create losers) subject attendance_date POST
            students table sc ec
  = inr (mark_rows subject attendance_date POST
           (filter (λ s, Student.id s ∉ losers) students) table,
         (sc + length (filter (λ s, Student.id s ∉ losers) students))%nat,
         (ec + length (filter (λ s, Student.id s ∈ losers) students))%nat).
Proof.
  induction students as [|s students IH]; intros table sc ec Hnd; simpl.
  { by rewrite !Nat.add_0_r. }
  unfold contended_update_or_create at 1. rewrite !filter_cons.
  destruct (decide (Student.id s ∈ losers)) as [Hin|Hnin].
  - rewrite decide_False by (by intros ?).
    rewrite IH by done. simpl.
    replace (ec + S (length (filter (λ s, Student.id s ∈ losers) students)))%nat
      with (S ec + length (filter (λ s, Student.id s ∈ losers) students))%nat
      by lia.
    done.
  - rewrite decide_True by done.
    rewrite update_or_create_upsert by done.
    rewrite IH by (by apply upsert_rows_unique). simpl.
    replace (sc + S (length (filter (λ s, Student.id s ∉ losers) students)))%nat
      with (S sc + length (filter (λ s, Student.id s ∉ losers) students))%nat
      by lia.
    done.
Qed.
End MarkRows.

Section AnyPersistence.
Context (upsert :
  list Attendance.row → Student.t → Subject.t → Date.t → Status → outcome).
Context (subject : Subject.t) (attendance_date : Date.t)
        (POST : gmap string string).

Lemma mark_loop_app pre post : ∀ table sc ec,
  mark_loop upsert subject attendance_date POST (pre ++ post) table sc ec
  = match mark_loop upsert subject attendance_date POST pre table sc ec with
    | inl e => inl e
    | inr (table1, sc1, ec1) =>
        mark_loop upsert subject attendance_date POST post table1 sc1 ec1
    end.
Proof.
  induction pre as [|s pre IH]; intros table sc ec; simpl; [done|].
  destruct (upsert table s subject attendance_date (status_of POST s))
    as [table' created|[]]; by rewrite ?IH.
Qed.

Lemma mark_loop_counts students : ∀ table sc ec table' sc' ec',
  mark_loop upsert subject attendance_date POST students table sc ec
  = inr (table', sc', ec') →
  (sc' + ec' = sc + ec + length students)%nat.
Proof.
  induction students as [|s students IH]; intros table sc ec table' sc' ec';
    simpl.
  { intros [= <- <- <-]. lia. }
  destruct (upsert table s subject attendance_date (status_of POST s))
    as [table1 created|[]]; [| |done]; intros Hloop%IH; lia.
Qed.

Lemma mark_loop_catches students : ∀ table sc ec,
  mark_loop upsert subject attendance_date POST students table sc ec
  ≠ inl IntegrityError.
Proof.
  induction students as [|s students IH]; intros table sc ec; simpl; [done|].
  destruct (upsert table s subject attendance_date (status_of POST s))
    as [table1 created|[]]; [apply IH|apply IH|done].
Qed.
End AnyPersistence.

Lemma roster_db_table db subject table :
  computeEligibleRoster (mkDB (students db) (subjects db) table) subject
  = computeEligibleRoster db subject.
Proof. done. Qed.

Lemma markAttendance_sequential db subject attendance_date POST :
  unique_together (attendances db) →
  markAttendance update_or_create db subject attendance_date POST
  = inr (mark_rows subject attendance_date POST
           (computeEligibleRoster db subject) (attendances db),
         length (computeEligibleRoster db subject), 0%nat).
Proof.
  intros Hnd. unfold markAttendance. by rewrite mark_loop_sequential.
Qed.

Lemma objects_get_elem table r :
  unique_together table → r ∈ table →
  ∃ j, objects_get table (row_key r) = Found j r.
Proof.
  intros Hnd [j Hj]%list_elem_of_lookup_1. exists j.
  by apply objects_get_present.
Qed.

(** ** The claims *)

(** C2. In every table the write operations can produce, two rows with the
    same (student, subject, date) are the same row; a raw [create] for a
    triple that already has a row raises [IntegrityError]; the marking
    engine's [update_or_create] for that triple overwrites the status of the
    existing row and does not raise. *)
Theorem C2_one_record_per_triple (table : list Attendance.row) :
  reachable table →
  (∀ i j r r', table !! i = Some r → table !! j = Some r' →
               row_key r = row_key r' → i = j)
  ∧ (∀ j r student subject date st,
       table !! j = Some r →
       row_key r = (Student.id student, Subject.id subject, date) →
       objects_create table student subject date st = Raised IntegrityError
       ∧ update_or_create table student subject date st
         = Saved (<[j:=set_status st r]> table) false)
  ∧ (∀ sts sbs subject date POST,
       ∃ table',
         markAttendance update_or_create (mkDB sts sbs table) subject date POST
         = inr (table',
                length (computeEligibleRoster (mkDB sts sbs table) subject),
                0%nat)
         ∧ unique_together table').
Proof.
  intros Hnd%reachable_unique. split_and!.
  - intros i j r r'. by apply unique_together_lookup.
  - intros j r student subject date st Hj Hk.
    assert ((Student.id student, Subject.id subject, date) ∈ row_key <$> table)
      as Hin.
    { rewrite <-Hk. eapply list_elem_of_fmap_2, list_elem_of_lookup_2; eauto. }
    split; [by apply objects_create_duplicate|].
    rewrite update_or_create_upsert by done.
    rewrite upsert_rows_present by done.
    rewrite bool_decide_eq_false_2 by (by intros ?).
    by rewrite <-Hk, (insert_set_status table j r st).
  - intros sts sbs subject date POST. eexists. split.
    + by apply markAttendance_sequential.
    + by apply mark_rows_unique.
Qed.

Lemma C2_witness :
  reachable [Attendance.mkrow 1 1 date_2024_01_10 P]
  ∧ objects_create [Attendance.mkrow 1 1 date_2024_01_10 P]
      student_21CSE001 subject_CS101 date_2024_01_10 A
    = Raised IntegrityError
  ∧ update_or_create [Attendance.mkrow 1 1 date_2024_01_10 P]
      student_21CSE001 subject_CS101 date_2024_01_10 A
    = Saved [Attendance.mkrow 1 1 date_2024_01_10 A] false.
Proof.
  assert (reachable [Attendance.mkrow 1 1 date_2024_01_10 P]) as Hreach.
  { apply (reachable_create [] _ student_21CSE001 subject_CS101
             date_2024_01_10 P true reachable_empty).
    reflexivity. }
  split; [exact Hreach|].
  apply (proj1 (proj2 (C2_one_record_per_triple _ Hreach)) 0%nat
           (Attendance.mkrow 1 1 date_2024_01_10 P)
           student_21CSE001 subject_CS101 date_2024_01_10 A);
    reflexivity.
Defined.

(** C3. Marking a subject and date with one presence map and then with a
    second one succeeds and leaves exactly the table that marking with the
    second map alone produces; every eligible student's row then carries
    the status of the second map. *)
Theorem C3_second_marking_overwrites (db : DB) (subject : Subject.t)
    (attendance_date : Date.t) (POST1 POST2 : gmap string string) :
  NoDup (Student.id <$> students db) →
  unique_together (attendances db) →
  ∃ table1 sc1 ec1 table2 sc2 ec2,
    markAttendance update_or_create db subject attendance_date POST1
    = inr (table1, sc1, ec1)
    ∧ markAttendance update_or_create
        (mkDB (students db) (subjects db) table1) subject attendance_date POST2
      = inr (table2, sc2, ec2)
    ∧ markAttendance update_or_create db subject attendance_date POST2
      = inr (table2, sc2, ec2)
    ∧ ∀ s, s ∈ computeEligibleRoster db subject →
           ∃ j, objects_get table2
                  (Student.id s, Subject.id subject, attendance_date)
                = Found j (Attendance.mkrow (Student.id s) (Subject.id subject)
                             attendance_date (status_of POST2 s)).
Proof.
  intros Hids Hnd.
  pose proof (mark_rows_unique subject attendance_date POST1
                (computeEligibleRoster db subject) _ Hnd) as Hnd1.
  eexists _, _, _, _, _, _. split_and!.
  - by apply markAttendance_sequential.
  - rewrite markAttendance_sequential by done. simpl.
    rewrite roster_db_table. reflexivity.
  - rewrite markAttendance_sequential by done.
    rewrite mark_rows_overwrite by (by apply roster_ids_NoDup). done.
  - intros s Hs.
    apply (objects_get_elem _
             (Attendance.mkrow (Student.id s) (Subject.id subject)
                attendance_date (status_of POST2 s))).
    + by apply mark_rows_unique.
    + by apply mark_rows_elem.
Qed.

Lemma sample_db_wf :
  NoDup (Student.id <$> students sample_db)
  ∧ unique_together (attendances sample_db).
Proof.
  split; [|apply NoDup_nil_2].
  refine (bool_decide_unpack _ _). vm_compute. exact I.
Qed.

Lemma C3_witness :
  NoDup (Student.id <$> students sample_db)
  ∧ unique_together (attendances sample_db)
  ∧ ∃ table1 sc1 ec1 table2 sc2 ec2,
      markAttendance update_or_create sample_db subject_CS101 date_2024_01_10
                     sample_POST = inr (table1, sc1, ec1)
      ∧ markAttendance update_or_create
          (mkDB (students sample_db) (subjects sample_db) table1)
          subject_CS101 date_2024_01_10 sample_POST' = inr (table2, sc2, ec2)
      ∧ markAttendance update_or_create sample_db subject_CS101 date_2024_01_10
                       sample_POST' = inr (table2, sc2, ec2)
      ∧ ∀ s, s ∈ computeEligibleRoster sample_db subject_CS101 →
             ∃ j, objects_get table2
                    (Student.id s, Subject.id subject_CS101, date_2024_01_10)
                  = Found j (Attendance.mkrow (Student.id s)
                               (Subject.id subject_CS101) date_2024_01_10
                               (status_of sample_POST' s)).
Proof.
  split; [apply sample_db_wf|]. split; [apply sample_db_wf|].
  apply (C3_second_marking_overwrites sample_db subject_CS101 date_2024_01_10
           sample_POST sample_POST'); apply sample_db_wf.
Defined.

(** C4. A submitted marking for a subject with a non-empty eligible roster
    succeeds, and afterwards every eligible student has a row for the
    subject and date: Present when the request carries ['on'] for the
    student, Absent when the student's field is missing or has another
    value. *)
Theorem C4_every_eligible_student_marked (db : DB) (subject : Subject.t)
    (attendance_date : Date.t) (POST : gmap string string) :
  unique_together (attendances db) →
  computeEligibleRoster db subject ≠ [] →
  is_Some (POST !! "submit_attendance") →
  ∃ res,
    mark_attendance update_or_create db subject attendance_date POST = inr res
    ∧ resp res = Redirect "view_attendance"
    ∧ ∀ s, s ∈ computeEligibleRoster db subject →
        ∃ j r,
          objects_get (new_table res)
            (Student.id s, Subject.id subject, attendance_date) = Found j r
          ∧ (POST !! ("student_" +:+ pretty (Student.id s)) = Some "on" →
             Attendance.row_status r = P)
          ∧ (POST !! ("student_" +:+ pretty (Student.id s)) ≠ Some "on" →
             Attendance.row_status r = A).
Proof.
  intros Hnd Hroster Hsubmit. unfold mark_attendance.
  rewrite decide_False by done. rewrite decide_True by done.
  rewrite markAttendance_sequential by done.
  eexists. split; [reflexivity|]. split; [done|]. simpl.
  intros s Hs.
  destruct (objects_get_elem
              (mark_rows subject attendance_date POST
                 (computeEligibleRoster db subject) (attendances db))
              (Attendance.mkrow (Student.id s) (Subject.id subject)
                 attendance_date (status_of POST s))) as [j Hj].
  { by apply mark_rows_unique. }
  { by apply mark_rows_elem. }
  exists j, (Attendance.mkrow (Student.id s) (Subject.id subject)
               attendance_date (status_of POST s)).
  split; [exact Hj|]. simpl. split.
  - apply status_of_on.
  - apply status_of_not_on.
Qed.

Lemma sample_roster_nonempty : computeEligibleRoster sample_db subject_CS101 ≠ [].
Proof. vm_compute. discriminate. Qed.

Lemma sample_POST_submitted : is_Some (sample_POST !! "submit_attendance").
Proof. exists "". reflexivity. Qed.

Lemma C4_witness :
  unique_together (attendances sample_db)
  ∧ computeEligibleRoster sample_db subject_CS101 ≠ []
  ∧ is_Some (sample_POST !! "submit_attendance")
  ∧ ∃ res,
      mark_attendance update_or_create sample_db subject_CS101 date_2024_01_10
                      sample_POST = inr res
      ∧ resp res = Redirect "view_attendance"
      ∧ ∀ s, s ∈ computeEligibleRoster sample_db subject_CS101 →
          ∃ j r,
            objects_get (new_table res)
              (Student.id s, Subject.id subject_CS101, date_2024_01_10)
            = Found j r
            ∧ (sample_POST !! ("student_" +:+ pretty (Student.id s)) = Some "on" →
               Attendance.row_status r = P)
            ∧ (sample_POST !! ("student_" +:+ pretty (Student.id s)) ≠ Some "on" →
               Attendance.row_status r = A).
Proof.
  split; [apply sample_db_wf|].
  split; [apply sample_roster_nonempty|].
  split; [apply sample_POST_submitted|].
  apply (C4_every_eligible_student_marked sample_db subject_CS101
           date_2024_01_10 sample_POST).
  - apply sample_db_wf.
  - apply sample_roster_nonempty.
  - apply sample_POST_submitted.
Defined.

(** C5. Whatever the persistence layer does: when the write for one student
    raises [IntegrityError], the loop counts one more failure and goes on
    with the remaining students from the same table; the loop, the engine
    and the view never propagate an [IntegrityError] to their caller. *)
Theorem C5_conflict_is_counted
    (upsert : list Attendance.row → Student.t → Subject.t → Date.t → Status
              → outcome)
    (subject : Subject.t) (attendance_date : Date.t)
    (POST : gmap string string)
    (pre : list Student.t) (s : Student.t) (post : list Student.t)
    (table table1 : list Attendance.row) (sc ec sc1 ec1 : nat) :
  mark_loop upsert subject attendance_date POST pre table sc ec
  = inr (table1, sc1, ec1) →
  upsert table1 s subject attendance_date (status_of POST s)
  = Raised IntegrityError →
  mark_loop upsert subject attendance_date POST (pre ++ s :: post) table sc ec
  = mark_loop upsert subject attendance_date POST post table1 sc1 (S ec1)
  ∧ mark_loop upsert subject attendance_date POST (pre ++ s :: post) table sc ec
    ≠ inl IntegrityError
  ∧ (∀ db, markAttendance upsert db subject attendance_date POST
           ≠ inl IntegrityError)
  ∧ (∀ db, mark_attendance upsert db subject attendance_date POST
           ≠ inl IntegrityError).
Proof.
  intros Hpre Hs. split_and!.
  - rewrite mark_loop_app, Hpre. simpl. by rewrite Hs.
  - apply mark_loop_catches.
  - intros db. apply mark_loop_catches.
  - intros db. unfold mark_attendance.
    case_decide; [done|]. case_decide; [|done].
    pose proof (mark_loop_catches upsert subject attendance_date POST
                  (computeEligibleRoster db subject) (attendances db) 0 0) as Hc.
    unfold markAttendance.
    destruct (mark_loop upsert subject attendance_date POST
                (computeEligibleRoster db subject) (attendances db) 0 0)
      as [e|[[t n] m]]; [|done].
    intros [= ->]. done.
Qed.

Lemma C5_witness :
  mark_loop (contended_update_or_create [2]) subject_CS101 date_2024_01_10
            sample_POST [student_21CSE001] [] 0 0
  = inr ([Attendance.mkrow 1 1 date_2024_01_10 P], 1%nat, 0%nat)
  ∧ contended_update_or_create [2] [Attendance.mkrow 1 1 date_2024_01_10 P]
      student_21CSE002 subject_CS101 date_2024_01_10
      (status_of sample_POST student_21CSE002)
    = Raised IntegrityError
  ∧ mark_loop (contended_update_or_create [2]) subject_CS101 date_2024_01_10
              sample_POST
              ([student_21CSE001] ++ student_21CSE002 :: [student_21CSE003])
              [] 0 0
    = mark_loop (contended_update_or_create [2]) subject_CS101 date_2024_01_10
                sample_POST [student_21CSE003]
                [Attendance.mkrow 1 1 date_2024_01_10 P] 1 1.
Proof.
  split; [reflexivity|]. split; [reflexivity|].
  apply (C5_conflict_is_counted (contended_update_or_create [2])
           subject_CS101 date_2024_01_10 sample_POST
           [student_21CSE001] student_21CSE002 [student_21CSE003]
           [] [Attendance.mkrow 1 1 date_2024_01_10 P] 0 0 1 0);
    reflexivity.
Defined.

(** C9. When no student is eligible for a subject, the eligible roster is
    empty, the engine's loop returns both counters at 0 with the table
    unchanged, and the view answers with the warning and persists
    nothing, whatever the date, the request and the persistence layer. *)
Theorem C9_empty_roster_is_noop
    (upsert : list Attendance.row → Student.t → Subject.t → Date.t → Status
              → outcome)
    (db : DB) (subject : Subject.t) (attendance_date : Date.t)
    (POST : gmap string string) :
  (∀ s, s ∈ students db → isEligible s subject = false) →
  computeEligibleRoster db subject = []
  ∧ markAttendance upsert db subject attendance_date POST
    = inr (attendances db, 0%nat, 0%nat)
  ∧ mark_attendance upsert db subject attendance_date POST
    = inr (mk_view_result (attendances db)
             [(WARNING, "No students found for this subject.")]
             (Redirect "mark_attendance")).
Proof.
  intros Hnone%roster_nil. split; [done|]. split.
  - unfold markAttendance. by rewrite Hnone.
  - unfold mark_attendance. by rewrite decide_True.
Qed.

Lemma sample_no_EC201_student :
  ∀ s, s ∈ students sample_db → isEligible s subject_EC201 = false.
Proof.
  intros s Hs. vm_compute in Hs.
  repeat (apply elem_of_cons in Hs as [->|Hs]; [reflexivity|]).
  by apply elem_of_nil in Hs.
Qed.

Lemma C9_witness :
  (∀ s, s ∈ students sample_db → isEligible s subject_EC201 = false)
  ∧ computeEligibleRoster sample_db subject_EC201 = []
  ∧ markAttendance update_or_create sample_db subject_EC201 date_2024_01_10
                   sample_POST
    = inr (attendances sample_db, 0%nat, 0%nat)
  ∧ mark_attendance update_or_create sample_db subject_EC201 date_2024_01_10
                    sample_POST
    = inr (mk_view_result (attendances sample_db)
             [(WARNING, "No students found for this subject.")]
             (Redirect "mark_attendance")).
Proof.
  split; [apply sample_no_EC201_student|].
  apply (C9_empty_roster_is_noop update_or_create sample_db subject_EC201
           date_2024_01_10 sample_POST).
  apply sample_no_EC201_student.
Defined.

(** C10. Whatever the persistence layer does, the two counters returned by
    the engine add up to the size of the eligible roster.  With the
    application's persistence layer, possibly losing races for some
    students, the engine returns, each eligible student is counted once
    (as a success, or as a failure when its write lost a race), and the rows
    of the students outside the eligible roster are left as they were. *)
Theorem C10_counts_cover_the_roster :
  (∀ upsert (db : DB) (subject : Subject.t) (attendance_date : Date.t)
     (POST : gmap string string) table' sc ec,
     markAttendance upsert db subject attendance_date POST
     = inr (table', sc, ec) →
     (sc + ec)%nat = length (computeEligibleRoster db subject))
  ∧ (∀ (losers : list Z) (db : DB) (subject : Subject.t)
       (attendance_date : Date.t) (POST : gmap string string),
       unique_together (attendances db) →
       ∃ table' sc ec,
         markAttendance (contended_update_or_create losers) db subject
                        attendance_date POST = inr (table', sc, ec)
         ∧ (sc + ec)%nat = length (computeEligibleRoster db subject)
         ∧ sc = length (filter (λ s, Student.id s ∉ losers)
                               (computeEligibleRoster db subject))
         ∧ ec = length (filter (λ s, Student.id s ∈ losers)
                               (computeEligibleRoster db subject))
         ∧ filter (λ r, Attendance.student_id r
                        ∉ Student.id <$> computeEligibleRoster db subject) table'
           = filter (λ r, Attendance.student_id r
                          ∉ Student.id <$> computeEligibleRoster db subject)
                    (attendances db)).
Proof.
  split.
  - intros upsert db subject attendance_date POST table' sc ec Hm.
    apply mark_loop_counts in Hm. lia.
  - intros losers db subject attendance_date POST Hnd.
    unfold markAttendance. rewrite mark_loop_contended by done.
    eexists _, _, _. split; [reflexivity|]. simpl. split_and!; [|done|done|].
    + pose proof (Permutation_length
                    (filter_app_complement (λ s, Student.id s ∈ losers)
                       (computeEligibleRoster db subject))) as Hlen.
      rewrite length_app in Hlen. lia.
    + apply mark_rows_frame. intros s Hs.
      apply list_elem_of_fmap_2.
      apply list_elem_of_filter in Hs as [_ Hs]. done.
Qed.

Lemma C10_witness :
  markAttendance (contended_update_or_create [2]) sample_db subject_CS101
                 date_2024_01_10 sample_POST
  = inr ([Attendance.mkrow 1 1 date_2024_01_10 P;
          Attendance.mkrow 3 1 date_2024_01_10 A], 2%nat, 1%nat)
  ∧ (2 + 1)%nat = length (computeEligibleRoster sample_db subject_CS101)
  ∧ unique_together (attendances sample_db)
  ∧ ∃ table' sc ec,
      markAttendance (contended_update_or_create [2]) sample_db subject_CS101
                     date_2024_01_10 sample_POST = inr (table', sc, ec)
      ∧ (sc + ec)%nat = length (computeEligibleRoster sample_db subject_CS101)
      ∧ sc = length (filter (λ s, Student.id s ∉ [2])
                            (computeEligibleRoster sample_db subject_CS101))
      ∧ ec = length (filter (λ s, Student.id s ∈ [2])
                            (computeEligibleRoster sample_db subject_CS101))
      ∧ filter (λ r, Attendance.student_id r
                     ∉ Student.id <$> computeEligibleRoster sample_db subject_CS101)
               table'
        = filter (λ r, Attendance.student_id r
                       ∉ Student.id <$> computeEligibleRoster sample_db subject_CS101)
                 (attendances sample_db).
Proof.
  split; [vm_compute; reflexivity|]. split.
  - apply (proj1 C10_counts_cover_the_roster (contended_update_or_create [2])
             sample_db subject_CS101 date_2024_01_10 sample_POST
             [Attendance.mkrow 1 1 date_2024_01_10 P;
              Attendance.mkrow 3 1 date_2024_01_10 A] 2%nat 1%nat).
    vm_compute. reflexivity.
  - split; [apply sample_db_wf|].
    apply (proj2 C10_counts_cover_the_roster [2] sample_db subject_CS101
             date_2024_01_10 sample_POST).
    apply sample_db_wf.
Defined.

(** ** Aggregation engine *)

Lemma int_truediv_Some a b : b ≠ 0 → is_Some (int_truediv a b).
Proof. intros Hb. unfold int_truediv. rewrite decide_False by done. eauto. Qed.

Lemma percent_expr_Some present total :
  total ≠ 0 → is_Some (percent_expr present total).
Proof.
  intros Ht. unfold percent_expr.
  destruct (int_truediv_Some present total Ht) as [q ->]. simpl. eauto.
Qed.

Lemma view_percentage_method present total :
  0 ≤ total → view_percentage present total = method_percentage present total.
Proof.
  intros Ht. unfold view_percentage, method_percentage.
  destruct (decide (total = 0)) as [->|Hne].
  - by rewrite decide_False by lia.
  - by rewrite decide_True by lia.
Qed.

Lemma view_percentage_Some present total :
  ∃ n, view_percentage present total = Some n ∧ (total = 0 → n = PyInt 0).
Proof.
  unfold view_percentage. case_decide as Ht.
  - destruct (percent_expr_Some present total) as [n Hn]; [lia|].
    exists n. split; [done|lia].
  - eauto.
Qed.

Lemma count_nonneg (cond : Attendance.row → Prop) `{∀ r, Decision (cond r)}
    table : 0 ≤ count cond table.
Proof. unfold count. lia. Qed.

Lemma subject_breakdown_entry_Some table student subject :
  ∃ e, subject_breakdown_entry table student subject = Some e
       ∧ entry_subject e = subject
       ∧ entry_total e
         = count (λ r, Attendance.student_id r = Student.id student
                       ∧ Attendance.subject_id r = Subject.id subject) table
       ∧ entry_present e
         = count (λ r, Attendance.student_id r = Student.id student
                       ∧ Attendance.subject_id r = Subject.id subject
                       ∧ Attendance.row_status r = P) table
       ∧ entry_absent e = entry_total e - entry_present e
       ∧ (entry_total e = 0 → entry_percentage e = PyInt 0).
Proof.
  unfold subject_breakdown_entry.
  destruct (view_percentage_Some
    (count (λ r, Attendance.student_id r = Student.id student
                 ∧ Attendance.subject_id r = Subject.id subject
                 ∧ Attendance.row_status r = P) table)
    (count (λ r, Attendance.student_id r = Student.id student
                 ∧ Attendance.subject_id r = Subject.id subject) table))
    as (n & -> & Hn).
  simpl. eexists. split; [reflexivity|]. simpl. done.
Qed.

Lemma perSubjectBreakdown_Some db student :
  ∃ entries,
    perSubjectBreakdown db student = Some entries
    ∧ Forall2 (λ subject e,
                 subject_breakdown_entry (attendances db) student subject = Some e)
              (subjects_of db student) entries.
Proof.
  unfold perSubjectBreakdown.
  destruct (mapM_is_Some_2 (subject_breakdown_entry (attendances db) student)
              (subjects_of db student)) as [entries Hentries].
  - apply Forall_forall. intros subject _. simpl.
    destruct (subject_breakdown_entry_Some (attendances db) student subject)
      as (e & -> & _). eauto.
  - exists entries. split; [done|]. by apply mapM_Some_1.
Qed.

Lemma breakdown_subjects table student subjects entries :
  Forall2 (λ subject e, subject_breakdown_entry table student subject = Some e)
          subjects entries →
  entry_subject <$> entries = subjects.
Proof.
  induction 1 as [|subject e l k He _ IH]; [done|].
  rewrite fmap_cons, IH.
  destruct (subject_breakdown_entry_Some table student subject)
    as (e' & He' & <- & _).
  by simplify_eq.
Qed.

(** C7. The per-subject breakdown of a student is always produced; its
    entries are, in order, the subjects of the student's department and
    year sorted by subject code, one entry per such row of the subject
    table, also for subjects without any record, whose percentage is 0; in
    every entry absent is total minus present. *)
Theorem C7_per_subject_breakdown (db : DB) (student : Student.t) :
  ∃ entries,
    perSubjectBreakdown db student = Some entries
    ∧ (∀ subject, subject ∈ entry_subject <$> entries ↔
                  subject ∈ subjects db
                  ∧ Subject.department subject = Student.department student
                  ∧ Subject.year subject = Student.year student)
    ∧ entry_subject <$> entries
        ≡ₚ filter (λ subject,
                     Subject.department subject = Student.department student
                     ∧ Subject.year subject = Student.year student)
                  (subjects db)
    ∧ StronglySorted (λ s1 s2, str_le (Subject.subject_code s1)
                                      (Subject.subject_code s2))
                     (entry_subject <$> entries)
    ∧ Forall (λ e,
        entry_total e
        = count (λ r, Attendance.student_id r = Student.id student
                      ∧ Attendance.subject_id r = Subject.id (entry_subject e))
                (attendances db)
        ∧ entry_present e
          = count (λ r, Attendance.student_id r = Student.id student
                        ∧ Attendance.subject_id r = Subject.id (entry_subject e)
                        ∧ Attendance.row_status r = P)
                  (attendances db)
        ∧ entry_absent e = entry_total e - entry_present e
        ∧ (entry_total e = 0 → entry_percentage e = PyInt 0)) entries.
Proof.
  destruct (perSubjectBreakdown_Some db student) as (entries & Hsome & Hall).
  exists entries. split; [done|].
  rewrite (breakdown_subjects _ _ _ _ Hall). split_and!.
  - intros subject. unfold subjects_of.
    rewrite order_by_Permutation, list_elem_of_filter. tauto.
  - apply order_by_Permutation.
  - apply (order_by_sorted Subject.subject_code).
  - clear Hsome.
    induction Hall as [|subject e l k He _ IH]; constructor; [|done].
    destruct (subject_breakdown_entry_Some (attendances db) student subject)
      as (e' & He' & <- & Hrest).
    by simplify_eq.
Qed.

Lemma agrees_below_160 : agrees_below 160 = true.
Proof. vm_compute. reflexivity. Qed.

Lemma percentage_half_even_below_160 present total :
  0 ≤ present ≤ total → total < 160 →
  method_percentage present total
  = Some (spec_percentage half_even present total).
Proof.
  intros Hp Ht. pose proof agrees_below_160 as Hall.
  unfold agrees_below in Hall. rewrite forallb_forall in Hall.
  assert (In total (seqZ 0 160)) as Hin1
    by (apply (proj1 (list_elem_of_In _ _)), elem_of_seqZ; lia).
  specialize (Hall total Hin1). rewrite forallb_forall in Hall.
  assert (In present (seqZ 0 (total + 1))) as Hin2
    by (apply (proj1 (list_elem_of_In _ _)), elem_of_seqZ; lia).
  apply Hall in Hin2. by apply bool_decide_eq_true_1 in Hin2.
Qed.

Lemma dashboard_Some db student :
  ∃ ctx, dashboard db student = Some ctx
         ∧ Some (attendance_percentage ctx)
           = view_percentage
               (count (λ r, Attendance.student_id r = Student.id student
                            ∧ Attendance.row_status r = P) (attendances db))
               (count (λ r, Attendance.student_id r = Student.id student)
                      (attendances db)).
Proof.
  unfold dashboard.
  destruct (view_percentage_Some
    (count (λ r, Attendance.student_id r = Student.id student
                 ∧ Attendance.row_status r = P) (attendances db))
    (count (λ r, Attendance.student_id r = Student.id student) (attendances db)))
    as (n & -> & _).
  destruct (perSubjectBreakdown_Some db student) as (entries & -> & _).
  simpl. eauto.
Qed.

(** C6 (amended). The percentage is the [int] 0 when the total is 0, and no
    division by zero occurs; for a positive total it is the float
    [round((present / total) * 100, 2)], computed by the same expression in
    [Student.get_attendance_percentage], in both places of [dashboard] and
    in [attendance_percentage]; for every [present <= total < 160] this
    float is the one nearest to [100 * present / total] rounded half-even
    to two decimals. *)
Theorem C6_percentage :
  (∀ present total : nat,
     view_percentage (Z.of_nat present) (Z.of_nat total)
     = method_percentage (Z.of_nat present) (Z.of_nat total)
     ∧ is_Some (method_percentage (Z.of_nat present) (Z.of_nat total))
     ∧ (total = 0%nat →
        method_percentage (Z.of_nat present) (Z.of_nat total) = Some (PyInt 0))
     ∧ ((0 < total)%nat →
        ∃ q, int_truediv (Z.of_nat present) (Z.of_nat total) = Some q
             ∧ method_percentage (Z.of_nat present) (Z.of_nat total)
               = Some (PyFloat (float_round (float_mul_int q 100) 2)))
     ∧ ((present ≤ total < 160)%nat →
        method_percentage (Z.of_nat present) (Z.of_nat total)
        = Some (spec_percentage half_even (Z.of_nat present) (Z.of_nat total))))
  ∧ (∀ table student subject,
       entry_percentage <$> subject_breakdown_entry table student subject
       = get_attendance_percentage table student (Some subject))
  ∧ (∀ table student,
       data_percentage <$> student_data_entry table student
       = get_attendance_percentage table student None)
  ∧ (∀ db student,
       attendance_percentage <$> dashboard db student
       = get_attendance_percentage (attendances db) student None).
Proof.
  split_and!.
  - intros present total. split_and!.
    + apply view_percentage_method. lia.
    + unfold method_percentage. case_decide; [eauto|].
      by apply percent_expr_Some.
    + intros ->. done.
    + intros Hpos. unfold method_percentage, percent_expr.
      rewrite decide_False by lia.
      destruct (int_truediv_Some (Z.of_nat present) (Z.of_nat total))
        as [q Hq]; [lia|].
      exists q. by rewrite Hq.
    + intros Hle. apply percentage_half_even_below_160; lia.
  - intros table student subject.
    unfold subject_breakdown_entry, get_attendance_percentage.
    rewrite <-view_percentage_method by apply count_nonneg.
    by destruct (view_percentage _ _).
  - intros table student.
    unfold student_data_entry, get_attendance_percentage.
    rewrite <-view_percentage_method by apply count_nonneg.
    by destruct (view_percentage _ _).
  - intros db student.
    destruct (dashboard_Some db student) as (ctx & -> & Hctx). simpl.
    unfold get_attendance_percentage.
    by rewrite <-view_percentage_method by apply count_nonneg.
Qed.

Lemma C6_witness :
  (0 < 3)%nat ∧ (1 ≤ 3 < 160)%nat
  ∧ (∃ q, int_truediv 1 3 = Some q
          ∧ method_percentage 1 3
            = Some (PyFloat (float_round (float_mul_int q 100) 2)))
  ∧ method_percentage 1 3 = Some (spec_percentage half_even 1 3)
  ∧ method_percentage 1 0 = Some (PyInt 0).
Proof.
  split; [lia|]. split; [lia|].
  pose proof (proj1 C6_percentage 1%nat 3%nat) as (_ & _ & _ & Hpos & Hlow).
  pose proof (proj1 C6_percentage 1%nat 0%nat) as (_ & _ & Hzero & _).
  split; [apply Hpos; lia|]. split; [apply Hlow; lia|].
  by apply Hzero.
Defined.

(** C6, as stated, fails: for 23 present out of 160 the exact percentage
    is 14.375, which both rounding modes take to 14.38, while the code
    returns the float 14.37. *)
Lemma C6_counterexample :
  method_percentage 23 160
  = Some (PyFloat (S754_finite false 8089590830664253 (-49)))
  ∧ view_percentage 23 160 = method_percentage 23 160
  ∧ round_div half_even (100 * 23 * 100) 160 = 1438
  ∧ round_div half_up (100 * 23 * 100) 160 = 1438
  ∧ spec_percentage half_even 23 160
    = PyFloat (S754_finite false 8095220330198467 (-49))
  ∧ spec_percentage half_up 23 160
    = PyFloat (S754_finite false 8095220330198467 (-49))
  ∧ method_percentage 23 160 ≠ Some (spec_percentage half_even 23 160)
  ∧ method_percentage 23 160 ≠ Some (spec_percentage half_up 23 160).
Proof.
  split_and!; try (vm_compute; reflexivity); vm_compute; discriminate.
Qed.

(** ** Validation on the admin save path *)

(** C8 (amended). An attendance record whose student and subject differ in
    department or in year is rejected by [clean], hence by [full_clean];
    [AttendanceAdmin.save_model], which validates before saving, reports
    the validation error and persists nothing. *)
Theorem C8_validated_save_rejects_mismatch (db : DB) (obj : Attendance.t) :
  Student.department (Attendance.student obj)
    ≠ Subject.department (Attendance.subject obj)
  ∨ Student.year (Attendance.student obj)
    ≠ Subject.year (Attendance.subject obj) →
  (∃ msg, Attendance_clean obj = Some msg ∧ msg ∈ full_clean db obj)
  ∧ save_model db obj = (db, [(ERROR, full_clean db obj)]).
Proof.
  intros Hmismatch.
  assert (∃ msg, Attendance_clean obj = Some msg) as [msg Hmsg].
  { destruct (Attendance_clean obj) as [msg|] eqn:Hclean; [eauto|].
    apply clean_related_None in Hclean as [Hd Hy].
    by destruct Hmismatch. }
  assert (msg ∈ full_clean db obj) as Hin.
  { unfold full_clean. rewrite Hmsg.
    apply elem_of_app. right. apply elem_of_app. left. by left. }
  split; [eauto|].
  unfold save_model. destruct (full_clean db obj); [|done].
  by apply elem_of_nil in Hin.
Qed.

Lemma C8_witness :
  (Student.department student_21ECE001 ≠ Subject.department subject_CS101
   ∨ Student.year student_21ECE001 ≠ Subject.year subject_CS101)
  ∧ save_model sample_db
      (Attendance.mk None student_21ECE001 subject_CS101 date_2024_01_10 P)
    = (sample_db,
       [(ERROR, ["Student and Subject must be from the same department"])]).
Proof.
  assert (Student.department student_21ECE001 ≠ Subject.department subject_CS101
          ∨ Student.year student_21ECE001 ≠ Subject.year subject_CS101) as Hm.
  { left. vm_compute. discriminate. }
  split; [exact Hm|].
  exact (proj2 (C8_validated_save_rejects_mismatch sample_db
                  (Attendance.mk None student_21ECE001 subject_CS101
                     date_2024_01_10 P) Hm)).
Defined.

(** C8, as stated, fails: a raw [create] linking an ECE student to a CSE
    subject, which [clean] rejects, is persisted without any error. *)
Lemma C8_counterexample :
  isEligible student_21ECE001 subject_CS101 = false
  ∧ Attendance_clean
      (Attendance.mk None student_21ECE001 subject_CS101 date_2024_01_10 P)
    = Some "Student and Subject must be from the same department"
  ∧ objects_create (attendances sample_db) student_21ECE001 subject_CS101
                   date_2024_01_10 P
    = Saved [Attendance.mkrow 4 1 date_2024_01_10 P] true.
Proof. split_and!; vm_compute; reflexivity. Qed.


(** ** The marking scenario *)

(** Marking 21CSE001 present for CS101 on 2024-01-10 counts one success;
    the student's summary is then 1 class, 1 present, 0 absent, 100.0. *)
Example scenario_first_marking :
  markAttendance update_or_create scenario_db subject_CS101 date_2024_01_10
                 sample_POST
  = inr ([Attendance.mkrow 1 1 date_2024_01_10 P], 1%nat, 0%nat)
  ∧ dashboard (mkDB (students scenario_db) (subjects scenario_db)
                    [Attendance.mkrow 1 1 date_2024_01_10 P])
              student_21CSE001
    = Some (mk_student_context
              (PyFloat (S754_finite false 7036874417766400 (-46))) 1 1 0
              [mk_subject_entry subject_CS101 1 1 0
                 (PyFloat (S754_finite false 7036874417766400 (-46)))]).
Proof. split; vm_compute; reflexivity. Qed.

(** Marking the same date again without the tick turns the row to Absent;
    the summary is then 1 class, 0 present, 1 absent, 0.0. *)
Example scenario_second_marking :
  markAttendance update_or_create
    (mkDB (students scenario_db) (subjects scenario_db)
          [Attendance.mkrow 1 1 date_2024_01_10 P])
    subject_CS101 date_2024_01_10 sample_POST'
  = inr ([Attendance.mkrow 1 1 date_2024_01_10 A], 1%nat, 0%nat)
  ∧ dashboard (mkDB (students scenario_db) (subjects scenario_db)
                    [Attendance.mkrow 1 1 date_2024_01_10 A])
              student_21CSE001
    = Some (mk_student_context (PyFloat (S754_zero false)) 1 0 1
              [mk_subject_entry subject_CS101 1 0 1 (PyFloat (S754_zero false))]).
Proof. split; vm_compute; reflexivity. Qed.

(** * Further properties *)

(** ** Reopening the marking form *)

Lemma foldl_insert_lookup {B} (f : B → Z) (g : B → Status) (l : list B) :
  ∀ (m : gmap Z Status) k v,
    NoDup (f <$> l) →
    foldl (λ (m : gmap Z Status) x, <[f x := g x]> m) m l !! k = Some v
    ↔ (∃ x, x ∈ l ∧ f x = k ∧ g x = v) ∨ ((k ∉ f <$> l) ∧ m !! k = Some v).
Proof.
  induction l as [|x l IH]; intros m k v Hnd.
  { simpl. split; [intros ?; right; split; [apply not_elem_of_nil|done]|].
    intros [(x & Hx & _)|[_ ?]]; [by apply elem_of_nil in Hx|done]. }
  rewrite fmap_cons, NoDup_cons in Hnd. destruct Hnd as [Hx Hnd].
  rewrite fmap_cons, not_elem_of_cons. cbn [foldl].
  rewrite IH by done.
  destruct (decide (f x = k)) as [<-|Hne].
  - rewrite lookup_insert_eq. split.
    + intros [(y & Hy & Hfy & _)|[_ [= <-]]].
      * exfalso. apply Hx. rewrite <-Hfy. by apply list_elem_of_fmap_2.
      * left. exists x. split; [by left|done].
    + intros [(y & [->|Hy]%elem_of_cons & Hfy & <-)|[[? _] _]]; [| |done].
      * by right.
      * exfalso. apply Hx. rewrite <-Hfy. by apply list_elem_of_fmap_2.
  - rewrite lookup_insert_ne by done. split.
    + intros [(y & Hy & Hfy & Hgy)|[Hk Hm]].
      * left. exists y. split; [by right|done].
      * right. split; [split; [congruence|done]|done].
    + intros [(y & [->|Hy]%elem_of_cons & Hfy & Hgy)|[[_ Hk] Hm]].
      * done.
      * left. eauto.
      * by right.
Qed.

Lemma filtered_student_ids_NoDup table subject_id date :
  unique_together table →
  NoDup (Attendance.student_id
           <$> filter (λ att, Attendance.subject_id att = subject_id
                             ∧ Attendance.row_date att = date) table).
Proof.
  unfold unique_together.
  induction table as [|r table IH]; intros Hnd; [apply NoDup_nil_2|].
  rewrite fmap_cons, NoDup_cons in Hnd. destruct Hnd as [Hr Hnd].
  rewrite filter_cons. case_decide as Hc; [|by apply IH].
  rewrite fmap_cons. apply NoDup_cons. split; [|by apply IH].
  intros (r' & Hid & [[Hs Hd] Hr']%list_elem_of_filter)%list_elem_of_fmap.
  apply Hr. apply list_elem_of_fmap. exists r'. split; [|done].
  unfold row_key. destruct Hc as [Hs' Hd']. congruence.
Qed.

Lemma existing_attendance_lookup (table : list Attendance.row)
    (subject : Subject.t) (attendance_date : Date.t) (student_id : Z)
    (st : Status) :
  unique_together table →
  existing_attendance table subject attendance_date !! student_id = Some st
  ↔ Attendance.mkrow student_id (Subject.id subject) attendance_date st ∈ table.
Proof.
  intros Hnd. unfold existing_attendance.
  rewrite (foldl_insert_lookup Attendance.student_id Attendance.row_status)
    by (by apply filtered_student_ids_NoDup).
  rewrite lookup_empty. split.
  - intros [(r & [[Hs Hd] Hr]%list_elem_of_filter & Hid & Hst)|[_ ?]]; [|done].
    destruct r as [sid subj d s]. simpl in *. by subst.
  - intros Hr. left.
    exists (Attendance.mkrow student_id (Subject.id subject) attendance_date st).
    split; [|done]. apply list_elem_of_filter. done.
Qed.

(** X1. With unique keys, the marks shown when the form is reopened are
    exactly the statuses stored for that subject and date: a student has a
    mark iff the table holds a row for the student, subject and date, and
    the mark is that row's status. *)
Theorem X1_existing_attendance_lookup (table : list Attendance.row)
    (subject : Subject.t) (attendance_date : Date.t) (student_id : Z)
    (st : Status) :
  unique_together table →
  (existing_attendance table subject attendance_date !! student_id = Some st
   ↔ Attendance.mkrow student_id (Subject.id subject) attendance_date st
     ∈ table)
  ∧ (existing_attendance table subject attendance_date !! student_id = None
     ↔ ∀ st', Attendance.mkrow student_id (Subject.id subject) attendance_date st'
              ∉ table).
Proof.
  intros Hnd. split; [by apply existing_attendance_lookup|].
  rewrite eq_None_not_Some. split.
  - intros Hno st' Hin. apply Hno. exists st'.
    by apply existing_attendance_lookup.
  - intros Hno [st' Hst']. apply (Hno st').
    by apply existing_attendance_lookup.
Qed.

Lemma X1_witness :
  unique_together [Attendance.mkrow 1 1 date_2024_01_10 P]
  ∧ (existing_attendance [Attendance.mkrow 1 1 date_2024_01_10 P]
       subject_CS101 date_2024_01_10 !! 1 = Some P
     ↔ Attendance.mkrow 1 (Subject.id subject_CS101) date_2024_01_10 P
       ∈ [Attendance.mkrow 1 1 date_2024_01_10 P]).
Proof.
  assert (unique_together [Attendance.mkrow 1 1 date_2024_01_10 P]) as Hnd.
  { refine (bool_decide_unpack _ _). vm_compute. exact I. }
  split; [exact Hnd|].
  exact (proj1 (X1_existing_attendance_lookup _ subject_CS101 date_2024_01_10
                  1 P Hnd)).
Defined.

(** X2. After a submitted marking, opening the form again for the same
    subject and date writes nothing, reports nothing and lists the eligible
    roster with, for every student, the status just marked. *)
Theorem X2_reopened_form_shows_marks (db : DB) (subject : Subject.t)
    (attendance_date : Date.t) (POST POST' : gmap string string) :
  unique_together (attendances db) →
  computeEligibleRoster db subject ≠ [] →
  is_Some (POST !! "submit_attendance") →
  POST' !! "submit_attendance" = None →
  ∃ res,
    mark_attendance update_or_create db subject attendance_date POST = inr res
    ∧ mark_attendance update_or_create
        (mkDB (students db) (subjects db) (new_table res))
        subject attendance_date POST'
      = inr (mk_view_result (new_table res) []
               (Render "attendance/mark_attendance_form.html"
                  ((λ s, (s, Some (status_of POST s)))
                     <$> computeEligibleRoster db subject))).
Proof.
  intros Hnd Hroster Hsubmit Hnone. unfold mark_attendance at 1.
  rewrite decide_False by done. rewrite decide_True by done.
  rewrite markAttendance_sequential by done.
  eexists. split; [reflexivity|]. simpl.
  unfold mark_attendance. rewrite roster_db_table. simpl.
  rewrite decide_False by done.
  rewrite decide_False by (rewrite Hnone; by intros [? ?]).
  do 3 f_equal. apply list_fmap_ext. intros i s Hs. f_equal.
  apply existing_attendance_lookup.
  - by apply mark_rows_unique.
  - apply mark_rows_elem. by eapply list_elem_of_lookup_2.
Qed.

Lemma X2_witness :
  unique_together (attendances sample_db)
  ∧ computeEligibleRoster sample_db subject_CS101 ≠ []
  ∧ is_Some (sample_POST !! "submit_attendance")
  ∧ (∅ : gmap string string) !! "submit_attendance" = None
  ∧ ∃ res,
      mark_attendance update_or_create sample_db subject_CS101 date_2024_01_10
                      sample_POST = inr res
      ∧ mark_attendance update_or_create
          (mkDB (students sample_db) (subjects sample_db) (new_table res))
          subject_CS101 date_2024_01_10 ∅
        = inr (mk_view_result (new_table res) []
                 (Render "attendance/mark_attendance_form.html"
                    ((λ s, (s, Some (status_of sample_POST s)))
                       <$> computeEligibleRoster sample_db subject_CS101))).
Proof.
  split; [apply sample_db_wf|].
  split; [apply sample_roster_nonempty|].
  split; [apply sample_POST_submitted|].
  split; [reflexivity|].
  apply (X2_reopened_form_shows_marks sample_db subject_CS101 date_2024_01_10
           sample_POST ∅).
  - apply sample_db_wf.
  - apply sample_roster_nonempty.
  - apply sample_POST_submitted.
  - reflexivity.
Defined.

(** ** The form encoding of the presence map *)

Lemma student_field_inj (i j : Z) :
  "student_" +:+ pretty i = "student_" +:+ pretty j → i = j.
Proof.
  intros Heq. apply (inj (String.append "student_")) in Heq.
  by apply (inj pretty) in Heq.
Qed.

Lemma ticked_lookup (ids : list Z) (i : Z) :
  foldr (λ i (m : gmap string string), <["student_" +:+ pretty i := "on"]> m)
        ∅ ids !! ("student_" +:+ pretty i) = Some "on"
  ↔ i ∈ ids.
Proof.
  induction ids as [|j ids IH]; simpl.
  { rewrite lookup_empty. split; [done|]. by intros ?%elem_of_nil. }
  rewrite elem_of_cons.
  destruct (decide (i = j)) as [->|Hne].
  - rewrite lookup_insert_eq. split; [by left|done].
  - rewrite lookup_insert_ne by (intros Heq%student_field_inj; done).
    rewrite IH. split; [by right|]. by intros [?|?].
Qed.

(** X3. A submitted form in which exactly the checkboxes of the students
    in [ids] are ticked is read back by the view as: Present for the
    students whose id is in [ids], Absent for all others; no two students
    share a checkbox, and the submit button is no student's checkbox. *)
Theorem X3_ticked_form_decodes (ids : list Z) (submit : string) (s : Student.t) :
  (status_of (ticked_form ids submit) s = P ↔ Student.id s ∈ ids)
  ∧ (status_of (ticked_form ids submit) s = A ↔ Student.id s ∉ ids)
  ∧ is_Some (ticked_form ids submit !! "submit_attendance").
Proof.
  assert (status_of (ticked_form ids submit) s = P ↔ Student.id s ∈ ids) as HP.
  { unfold status_of, is_present, ticked_form.
    rewrite lookup_insert_ne by done.
    destruct (bool_decide _) eqn:Hb.
    - apply bool_decide_eq_true_1 in Hb. apply ticked_lookup in Hb. done.
    - apply bool_decide_eq_false_1 in Hb. rewrite ticked_lookup in Hb.
      split; [done|]. intros ?. done. }
  split_and!; [done| |].
  - rewrite <-HP. destruct (status_of (ticked_form ids submit) s).
    + split; [done|]. intros Hn. by destruct Hn.
    + split; [|done]. intros _. discriminate.
  - unfold ticked_form. rewrite lookup_insert_eq. eauto.
Qed.

Lemma Subject_get_Some db sid subject :
  Subject_get db sid = Some subject →
  subject ∈ subjects db ∧ Subject.id subject = sid.
Proof.
  unfold Subject_get.
  destruct (list_find _ (subjects db)) as [[i subj]|] eqn:Hfind; [|done].
  intros [= <-]. apply list_find_Some in Hfind as (Hi & Hid & _).
  split; [by eapply list_elem_of_lookup_2|done].
Qed.

Lemma Subject_get_None db sid :
  (∀ subj, subj ∈ subjects db → Subject.id subj ≠ sid) →
  Subject_get db sid = None.
Proof.
  intros Hno. unfold Subject_get.
  destruct (list_find _ (subjects db)) as [[i subj]|] eqn:Hfind; [|done].
  apply list_find_Some in Hfind as (Hi & Hid & _).
  exfalso. eapply Hno; [by eapply list_elem_of_lookup_2|done].
Qed.

(** X4. The checkboxes [MarkAttendanceForm] adds for a subject are named
    after the students of its eligible roster, in roll-number order, with
    exactly the names the marking view reads, and no two of them have the
    same name; for a subject id that no subject has, no checkbox is
    added. *)
Theorem X4_form_fields_match_the_view (db : DB) (subject_id : option Z) :
  NoDup (Student.id <$> students db) →
  NoDup (fst <$> MarkAttendanceForm_student_fields db subject_id)
  ∧ (∀ sid, subject_id = Some sid →
       (∀ subj, subj ∈ subjects db → Subject.id subj ≠ sid) →
       MarkAttendanceForm_student_fields db subject_id = [])
  ∧ (∀ sid subject, subject_id = Some sid → sid ≠ 0 →
       Subject_get db sid = Some subject →
       subject ∈ subjects db ∧ Subject.id subject = sid
       ∧ fst <$> MarkAttendanceForm_student_fields db subject_id
         = (λ s, "student_" +:+ pretty (Student.id s))
             <$> computeEligibleRoster db subject
       ∧ ∀ POST s, s ∈ computeEligibleRoster db subject →
           (is_present POST s = true ↔
            ∃ name label,
              (name, label) ∈ MarkAttendanceForm_student_fields db subject_id
              ∧ name = "student_" +:+ pretty (Student.id s)
              ∧ POST !! name = Some "on")).
Proof.
  intros Hids. split_and!.
  - unfold MarkAttendanceForm_student_fields.
    destruct subject_id as [sid|]; [|apply NoDup_nil_2].
    case_decide; [apply NoDup_nil_2|].
    destruct (Subject_get db sid) as [subject|]; [|apply NoDup_nil_2].
    rewrite <-list_fmap_compose.
    pose proof (roster_ids_NoDup db subject Hids) as Hnd.
    induction (computeEligibleRoster db subject) as [|s l IH];
      [apply NoDup_nil_2|].
    rewrite fmap_cons, NoDup_cons in Hnd. destruct Hnd as [Hs Hnd].
    rewrite fmap_cons. apply NoDup_cons. split; [|by apply IH].
    intros (s' & Heq & Hs')%list_elem_of_fmap. simpl in Heq.
    apply student_field_inj in Heq. apply Hs. rewrite Heq.
    by apply list_elem_of_fmap_2.
  - intros sid -> Hno. unfold MarkAttendanceForm_student_fields.
    case_decide; [done|]. by rewrite Subject_get_None.
  - intros sid subject -> Hsid Hget.
    destruct (Subject_get_Some _ _ _ Hget) as [Hin Hid].
    split; [done|]. split; [done|].
    unfold MarkAttendanceForm_student_fields.
    rewrite decide_False by done. rewrite Hget. split.
    + rewrite <-list_fmap_compose. done.
    + intros POST s Hs. unfold is_present. rewrite bool_decide_eq_true. split.
      * intros Hon. eexists _, _. split; [|done].
        apply list_elem_of_fmap. exists s. done.
      * intros (name & label & _ & -> & Hon). done.
Qed.

Lemma X4_witness :
  NoDup (Student.id <$> students sample_db)
  ∧ MarkAttendanceForm_student_fields sample_db (Some 1)
    = [("student_1", "21CSE001 - Test Student");
       ("student_2", "21CSE002 - Second Student");
       ("student_3", "21CSE003 - Third Student")]
  ∧ NoDup (fst <$> MarkAttendanceForm_student_fields sample_db (Some 1))
  ∧ MarkAttendanceForm_student_fields sample_db (Some 7) = [].
Proof.
  split; [apply sample_db_wf|]. split; [vm_compute; reflexivity|].
  pose proof (X4_form_fields_match_the_view sample_db (Some 1)
                (proj1 sample_db_wf)) as (Hnd & _ & _).
  pose proof (X4_form_fields_match_the_view sample_db (Some 7)
                (proj1 sample_db_wf)) as (_ & Hnone & _).
  split; [exact Hnd|].
  apply (Hnone 7); [reflexivity|].
  intros subj Hsubj. vm_compute in Hsubj.
  repeat (apply elem_of_cons in Hsubj as [->|Hsubj]; [vm_compute; discriminate|]).
  by apply elem_of_nil in Hsubj.
Defined.

(** ** What a marking leaves alone *)

Lemma overwrite_set_status k st r :
  ∃ st', overwrite k st r = set_status st' r.
Proof.
  unfold overwrite. case_decide; [by exists st|].
  exists (Attendance.row_status r). by destruct r.
Qed.

Lemma upsert_rows_lookup table k st i r :
  table !! i = Some r → upsert_rows table k st !! i = Some (overwrite k st r).
Proof.
  intros Hi. unfold upsert_rows. case_decide as Hk.
  - by rewrite list_lookup_fmap, Hi.
  - rewrite lookup_app_l by (by eapply lookup_lt_Some).
    rewrite Hi. f_equal. symmetry. apply overwrite_other.
    intros <-. apply Hk. eapply list_elem_of_fmap_2, list_elem_of_lookup_2; eauto.
Qed.

Lemma upsert_rows_elem_inv table k st r :
  r ∈ upsert_rows table k st → row_key r = k ∨ r ∈ table.
Proof.
  unfold upsert_rows. case_decide as Hk.
  - intros (r0 & -> & Hr0)%list_elem_of_fmap.
    destruct (decide (row_key r0 = k)) as [Heq|Hne].
    + left. by rewrite overwrite_key.
    + right. by rewrite overwrite_other.
  - intros [Hr|Hr%list_elem_of_singleton]%elem_of_app; [by right|].
    left. subst r. by destruct k as [[??]?].
Qed.

Section MarkFrame.
Context (subject : Subject.t) (attendance_date : Date.t)
        (POST : gmap string string).

Lemma mark_rows_lookup students : ∀ table i r,
  table !! i = Some r →
  ∃ st, mark_rows subject attendance_date POST students table !! i
        = Some (set_status st r).
Proof.
  induction students as [|s students IH]; intros table i r Hi.
  { exists (Attendance.row_status r). simpl. rewrite Hi. by destruct r. }
  rewrite mark_rows_cons.
  destruct (overwrite_set_status
              (Student.id s, Subject.id subject, attendance_date)
              (status_of POST s) r) as [st' Hst'].
  destruct (IH (upsert_rows table
                  (Student.id s, Subject.id subject, attendance_date)
                  (status_of POST s)) i (set_status st' r)) as [st Hst].
  { rewrite <-Hst'. by apply upsert_rows_lookup. }
  exists st. by rewrite Hst.
Qed.

Lemma mark_rows_lookup_other students : ∀ table i r,
  table !! i = Some r →
  Attendance.subject_id r ≠ Subject.id subject
  ∨ Attendance.row_date r ≠ attendance_date →
  mark_rows subject attendance_date POST students table !! i = Some r.
Proof.
  induction students as [|s students IH]; intros table i r Hi Hother; [done|].
  rewrite mark_rows_cons. apply IH; [|done].
  rewrite (upsert_rows_lookup _ _ _ _ _ Hi). f_equal.
  apply overwrite_other. unfold row_key. intros [= _ Hs Hd].
  by destruct Hother.
Qed.

Lemma mark_rows_elem_inv students : ∀ table r,
  r ∈ mark_rows subject attendance_date POST students table →
  (∃ s, s ∈ students
        ∧ row_key r = (Student.id s, Subject.id subject, attendance_date))
  ∨ r ∈ table.
Proof.
  induction students as [|s students IH]; intros table r Hr; [by right|].
  rewrite mark_rows_cons in Hr.
  apply IH in Hr as [(s' & Hs' & Hk)|Hr].
  - left. exists s'. split; [by right|done].
  - apply upsert_rows_elem_inv in Hr as [Hk|Hr]; [|by right].
    left. exists s. split; [by left|done].
Qed.

Lemma mark_rows_length students : ∀ table,
  (length table
   ≤ length (mark_rows subject attendance_date POST students table)
   ≤ length table + length students)%nat.
Proof.
  induction students as [|s students IH]; intros table; simpl; [lia|].
  fold (mark_rows subject attendance_date POST students
          (upsert_rows table (Student.id s, Subject.id subject, attendance_date)
             (status_of POST s))).
  pose proof (IH (upsert_rows table
                    (Student.id s, Subject.id subject, attendance_date)
                    (status_of POST s))) as Hlen.
  rewrite upsert_rows_length in Hlen. case_decide; lia.
Qed.
End MarkFrame.

(** X5. A marking never deletes or re-keys a record: every row stays at its
    place with its student, subject and date, only its status may change;
    rows of another subject or another date are unchanged, no row for
    another subject or date is added, and at most one row per eligible
    student is added. *)
Theorem X5_marking_keeps_other_records (db : DB) (subject : Subject.t)
    (attendance_date : Date.t) (POST : gmap string string) :
  unique_together (attendances db) →
  ∃ table' sc ec,
    markAttendance update_or_create db subject attendance_date POST
    = inr (table', sc, ec)
    ∧ (∀ i r, attendances db !! i = Some r →
              ∃ st, table' !! i = Some (set_status st r))
    ∧ (∀ i r, attendances db !! i = Some r →
              Attendance.subject_id r ≠ Subject.id subject
              ∨ Attendance.row_date r ≠ attendance_date →
              table' !! i = Some r)
    ∧ (∀ r, r ∈ table' →
            Attendance.subject_id r ≠ Subject.id subject
            ∨ Attendance.row_date r ≠ attendance_date →
            r ∈ attendances db)
    ∧ (length (attendances db) ≤ length table'
       ≤ length (attendances db) + length (computeEligibleRoster db subject))%nat.
Proof.
  intros Hnd. rewrite markAttendance_sequential by done.
  eexists _, _, _. split; [reflexivity|]. split_and!.
  - intros i r. apply mark_rows_lookup.
  - intros i r. apply mark_rows_lookup_other.
  - intros r Hr Hother.
    apply mark_rows_elem_inv in Hr as [(s & _ & Hk)|Hr]; [|done].
    unfold row_key in Hk. injection Hk as _ Hs Hd. by destruct Hother.
  - apply mark_rows_length.
  - apply mark_rows_length.
Qed.

Lemma X5_witness :
  unique_together (attendances sample_db)
  ∧ ∃ table' sc ec,
      markAttendance update_or_create sample_db subject_CS101 date_2024_01_10
                     sample_POST = inr (table', sc, ec)
      ∧ (length (attendances sample_db) ≤ length table'
         ≤ length (attendances sample_db)
           + length (computeEligibleRoster sample_db subject_CS101))%nat.
Proof.
  split; [apply sample_db_wf|].
  destruct (X5_marking_keeps_other_records sample_db subject_CS101
              date_2024_01_10 sample_POST (proj2 sample_db_wf))
    as (table' & sc & ec & Hm & _ & _ & _ & Hlen).
  exists table', sc, ec. split; [exact Hm|exact Hlen].
Defined.

(** X6. If every row of the ledger links an existing student and an
    existing subject of the same department and year, the same holds after
    a marking for a subject of the subject table: the roster filter keeps
    the eligibility rule without calling the validation. *)
Theorem X6_marking_keeps_ledger_valid (db : DB) (subject : Subject.t)
    (attendance_date : Date.t) (POST : gmap string string) :
  subject ∈ subjects db →
  unique_together (attendances db) →
  valid_ledger db (attendances db) →
  ∃ table' sc ec,
    markAttendance update_or_create db subject attendance_date POST
    = inr (table', sc, ec)
    ∧ unique_together table'
    ∧ valid_ledger db table'.
Proof.
  intros Hsubject Hnd Hvalid. rewrite markAttendance_sequential by done.
  eexists _, _, _. split; [reflexivity|]. split; [by apply mark_rows_unique|].
  intros r Hr.
  apply mark_rows_elem_inv in Hr as [(s & Hs & Hk)|Hr]; [|by apply Hvalid].
  apply elem_of_roster in Hs as [Hs Hel].
  injection Hk as Hsid Hsubj _.
  exists s, subject. done.
Qed.

Lemma X6_witness :
  subject_CS101 ∈ subjects sample_db
  ∧ unique_together (attendances sample_db)
  ∧ valid_ledger sample_db (attendances sample_db)
  ∧ ∃ table' sc ec,
      markAttendance update_or_create sample_db subject_CS101 date_2024_01_10
                     sample_POST = inr (table', sc, ec)
      ∧ unique_together table'
      ∧ valid_ledger sample_db table'.
Proof.
  assert (subject_CS101 ∈ subjects sample_db) as Hsubj
    by (right; left).
  assert (valid_ledger sample_db (attendances sample_db)) as Hvalid
    by (intros r Hr; by apply elem_of_nil in Hr).
  split; [exact Hsubj|]. split; [apply sample_db_wf|]. split; [exact Hvalid|].
  exact (X6_marking_keeps_ledger_valid sample_db subject_CS101 date_2024_01_10
           sample_POST Hsubj (proj2 sample_db_wf) Hvalid).
Defined.

(** ** Viewing attendance records *)

Lemma date_lt_trichotomy a b : date_lt a b ∨ a = b ∨ date_lt b a.
Proof.
  destruct a as [y1 m1 d1], b as [y2 m2 d2]. unfold date_lt. simpl.
  destruct (decide (y1 = y2)) as [->|?]; [|lia].
  destruct (decide (m1 = m2)) as [->|?]; [|lia].
  destruct (decide (d1 = d2)) as [->|?]; [|lia].
  right. by left.
Qed.

Lemma date_lt_trans a b c : date_lt a b → date_lt b c → date_lt a c.
Proof. unfold date_lt. lia. Qed.

Lemma date_lt_irrefl a : ¬ date_lt a a.
Proof. unfold date_lt. lia. Qed.

#[global] Instance recent_first_total students : Total (recent_first students).
Proof.
  intros r1 r2. unfold recent_first.
  destruct (date_lt_trichotomy (Attendance.row_date r1) (Attendance.row_date r2))
    as [Hlt|[Heq|Hgt]].
  - right. by left.
  - destruct (str_le_total (roll_number_of students (Attendance.student_id r1))
                (roll_number_of students (Attendance.student_id r2))).
    + left. right. done.
    + right. right. done.
  - left. by left.
Qed.

#[global] Instance recent_first_trans students : Transitive (recent_first students).
Proof.
  intros r1 r2 r3. unfold recent_first.
  intros [H12|[E12 L12]] [H23|[E23 L23]].
  - left. by eapply date_lt_trans.
  - left. by rewrite <-E23.
  - left. by rewrite E12.
  - right. split; [congruence|]. by etrans.
Qed.

Lemma StronglySorted_filter {B} (R : relation B) (cond : B → Prop)
    `{∀ x, Decision (cond x)} (l : list B) :
  StronglySorted R l → StronglySorted R (filter cond l).
Proof.
  induction 1 as [|x l Hsorted IH Hall]; [constructor|].
  rewrite filter_cons. case_decide; [|done].
  constructor; [done|].
  apply Forall_forall. intros y [_ Hy]%list_elem_of_filter.
  by eapply Forall_forall in Hall.
Qed.

Lemma view_attendance_elem db user GET r :
  r ∈ attendance_records (view_attendance db user GET) ↔
  r ∈ attendances db
  ∧ (∀ student, user_student (students db) user = Some student →
                Attendance.student_id r = Student.id student)
  ∧ (∀ student_id, query_student GET = Some student_id →
                   Attendance.student_id r = student_id)
  ∧ (∀ subject_id, query_subject GET = Some subject_id →
                   Attendance.subject_id r = subject_id)
  ∧ (∀ date_from, query_date_from GET = Some date_from →
                  date_le date_from (Attendance.row_date r))
  ∧ (∀ date_to, query_date_to GET = Some date_to →
                date_le (Attendance.row_date r) date_to).
Proof.
  unfold view_attendance. simpl.
  destruct (user_student (students db) user) as [student|],
    (query_student GET) as [student_id|],
    (query_subject GET) as [subject_id|],
    (query_date_from GET) as [date_from|],
    (query_date_to GET) as [date_to|];
    rewrite ?list_elem_of_filter, merge_sort_Permutation;
    (split;
     [intros; split_and!; intros; simplify_eq; tauto
     |intros (? & Hown & Hst & Hsubj & Hfrom & Hto);
      repeat split; eauto]).
Qed.

Lemma view_attendance_sorted db user GET :
  StronglySorted (recent_first (students db))
                 (attendance_records (view_attendance db user GET)).
Proof.
  unfold view_attendance. simpl.
  destruct (user_student (students db) user) as [student|],
    (query_student GET) as [student_id|],
    (query_subject GET) as [subject_id|],
    (query_date_from GET) as [date_from|],
    (query_date_to GET) as [date_to|];
    repeat apply StronglySorted_filter;
    apply StronglySorted_merge_sort; apply _.
Qed.

(** X7. A user linked to a student sees only that student's own records in
    [view_attendance], whatever the GET parameters and also when the user
    is staff; asking for another student's id yields no record at all. *)
Theorem X7_student_sees_own_records (db : DB) (user : User.t)
    (GET : attendance_query) (student : Student.t) :
  user_student (students db) user = Some student →
  is_student (students db) user = true
  ∧ student ∈ students db
  ∧ Student.user student = Some (User.id user)
  ∧ (∀ r, r ∈ attendance_records (view_attendance db user GET) →
          r ∈ attendances db
          ∧ Attendance.student_id r = Student.id student)
  ∧ (∀ other, query_student GET = Some other → other ≠ Student.id student →
              attendance_records (view_attendance db user GET) = []).
Proof.
  intros Hstudent. split_and!.
  - unfold is_student. rewrite Hstudent. by apply bool_decide_eq_true_2.
  - unfold user_student in Hstudent.
    destruct (list_find _ (students db)) as [[i s]|] eqn:Hfind; [|done].
    injection Hstudent as ->. apply list_find_Some in Hfind as (Hi & _).
    by eapply list_elem_of_lookup_2.
  - unfold user_student in Hstudent.
    destruct (list_find _ (students db)) as [[i s]|] eqn:Hfind; [|done].
    injection Hstudent as ->. by apply list_find_Some in Hfind as (_ & Hu & _).
  - intros r (Hr & Hown & _)%view_attendance_elem.
    split; [done|]. by apply Hown.
  - intros other Hother Hne.
    destruct (attendance_records (view_attendance db user GET)) as [|r l] eqn:E;
      [done|].
    assert (r ∈ attendance_records (view_attendance db user GET)) as Hr
      by (rewrite E; left).
    apply view_attendance_elem in Hr as (_ & Hown & Hq & _).
    exfalso. apply Hne. rewrite <-(Hq other Hother). by apply Hown.
Qed.

Lemma X7_witness :
  user_student (students login_db) user_21CSE001 = Some student_with_login
  ∧ is_admin user_21CSE001 = true
  ∧ attendance_records
      (view_attendance login_db user_21CSE001
         (mk_attendance_query None None None None))
    = [Attendance.mkrow 1 1 date_2024_01_10 P]
  ∧ (∀ r, r ∈ attendance_records
                (view_attendance login_db user_21CSE001
                   (mk_attendance_query (Some 2) None None None)) →
          r ∈ attendances login_db
          ∧ Attendance.student_id r = Student.id student_with_login)
  ∧ attendance_records
      (view_attendance login_db user_21CSE001
         (mk_attendance_query (Some 2) None None None)) = [].
Proof.
  assert (user_student (students login_db) user_21CSE001
          = Some student_with_login) as Hu by reflexivity.
  split; [exact Hu|]. split; [reflexivity|]. split; [vm_compute; reflexivity|].
  destruct (X7_student_sees_own_records login_db user_21CSE001
              (mk_attendance_query (Some 2) None None None)
              student_with_login Hu) as (_ & _ & _ & Hown & Hother).
  split; [exact Hown|].
  apply (Hother 2); [reflexivity|]. vm_compute. discriminate.
Defined.

Lemma status_count_split (l : list Attendance.row) :
  length l
  = (length (filter (λ r, Attendance.row_status r = P) l)
     + length (filter (λ r, Attendance.row_status r = A) l))%nat.
Proof.
  induction l as [|r l IH]; [done|].
  rewrite !filter_cons.
  destruct (decide (Attendance.row_status r = P)) as [HP|HP];
    destruct (decide (Attendance.row_status r = A)) as [HA|HA]; simpl.
  - congruence.
  - lia.
  - lia.
  - by destruct (Attendance.row_status r).
Qed.

Lemma StronglySorted_weaken {B} (R1 R2 : relation B) (l : list B) :
  (∀ x y, R1 x y → R2 x y) → StronglySorted R1 l → StronglySorted R2 l.
Proof.
  intros Himpl. induction 1 as [|x l _ IH Hall]; constructor; [done|].
  eapply Forall_impl; [exact Hall|]. intros y. apply Himpl.
Qed.

(** X8. The records [view_attendance] shows are exactly the rows of the
    table that pass every filter given (the viewer's own student, student,
    subject, first date, last date); they come latest date first and, within
    a date, by roll number; the three counters satisfy
    total = present + absent; and a viewer without student link who gives
    no filter sees every row. *)
Theorem X8_view_attendance_records (db : DB) (user : User.t)
    (GET : attendance_query) :
  (∀ r, r ∈ attendance_records (view_attendance db user GET) ↔
        r ∈ attendances db
        ∧ (∀ student, user_student (students db) user = Some student →
                      Attendance.student_id r = Student.id student)
        ∧ (∀ student_id, query_student GET = Some student_id →
                         Attendance.student_id r = student_id)
        ∧ (∀ subject_id, query_subject GET = Some subject_id →
                         Attendance.subject_id r = subject_id)
        ∧ (∀ date_from, query_date_from GET = Some date_from →
                        date_le date_from (Attendance.row_date r))
        ∧ (∀ date_to, query_date_to GET = Some date_to →
                      date_le (Attendance.row_date r) date_to))
  ∧ StronglySorted (recent_first (students db))
                   (attendance_records (view_attendance db user GET))
  ∧ StronglySorted (λ r1 r2, date_le (Attendance.row_date r2)
                                     (Attendance.row_date r1))
                   (attendance_records (view_attendance db user GET))
  ∧ total_count (view_attendance db user GET)
    = Z.of_nat (length (attendance_records (view_attendance db user GET)))
  ∧ total_count (view_attendance db user GET)
    = present_count (view_attendance db user GET)
      + absent_count (view_attendance db user GET)
  ∧ (user_student (students db) user = None →
     GET = mk_attendance_query None None None None →
     attendance_records (view_attendance db user GET) ≡ₚ attendances db).
Proof.
  split_and!.
  - intros r. apply view_attendance_elem.
  - apply view_attendance_sorted.
  - eapply StronglySorted_weaken; [|apply view_attendance_sorted].
    intros r1 r2 [Hlt|[Heq _]]; [by left|by right].
  - done.
  - unfold total_count, present_count, absent_count, view_attendance.
    rewrite <-Nat2Z.inj_add. f_equal. apply status_count_split.
  - intros Hnone ->. unfold view_attendance. simpl. rewrite Hnone.
    apply merge_sort_Permutation.
Qed.

Lemma X8_witness :
  user_student (students sample_db)
               (User.mk 99 "admin" "pbkdf2$y" "" true true) = None
  ∧ attendance_records
      (view_attendance sample_db (User.mk 99 "admin" "pbkdf2$y" "" true true)
         (mk_attendance_query None None None None))
    ≡ₚ attendances sample_db.
Proof.
  split; [reflexivity|].
  destruct (X8_view_attendance_records sample_db
              (User.mk 99 "admin" "pbkdf2$y" "" true true)
              (mk_attendance_query None None None None))
    as (_ & _ & _ & _ & _ & Hall).
  apply Hall; reflexivity.
Defined.

(** ** The attendance percentage page *)

Lemma count_le (cond1 cond2 : Attendance.row → Prop)
    `{∀ r, Decision (cond1 r)} `{∀ r, Decision (cond2 r)} table :
  (∀ r, cond1 r → cond2 r) → count cond1 table ≤ count cond2 table.
Proof.
  intros Himpl. unfold count. apply inj_le.
  induction table as [|r table IH]; [done|].
  rewrite !filter_cons.
  destruct (decide (cond1 r)) as [H1|H1]; destruct (decide (cond2 r)) as [H2|H2];
    simpl; try lia.
  by apply Himpl in H1.
Qed.





(** ** The dashboard's totals *)

Lemma count_cons (cond : Attendance.row → Prop) `{∀ r, Decision (cond r)} r table :
  count cond (r :: table)
  = (if decide (cond r) then 1 else 0) + count cond table.
Proof.
  unfold count. rewrite filter_cons.
  destruct (decide (cond r)); [rewrite length_cons|]; lia.
Qed.

Lemma sum_Z_add {B} (f g : B → Z) (l : list B) :
  sum_Z ((λ x, f x + g x) <$> l) = sum_Z (f <$> l) + sum_Z (g <$> l).
Proof.
  induction l as [|x l IH]; [done|].
  rewrite !fmap_cons. unfold sum_Z in *. cbn [foldr]. lia.
Qed.

Lemma sum_Z_sub {B} (f g : B → Z) (l : list B) :
  sum_Z ((λ x, f x - g x) <$> l) = sum_Z (f <$> l) - sum_Z (g <$> l).
Proof.
  induction l as [|x l IH]; [done|].
  rewrite !fmap_cons. unfold sum_Z in *. cbn [foldr]. lia.
Qed.

Lemma sum_Z_zero {B} (f : B → Z) (l : list B) :
  (∀ x, x ∈ l → f x = 0) → sum_Z (f <$> l) = 0.
Proof.
  induction l as [|x l IH]; intros Hz; [done|].
  rewrite fmap_cons. unfold sum_Z in *. cbn [foldr].
  rewrite (Hz x) by (by left). rewrite IH; [done|].
  intros y Hy. apply Hz. by right.
Qed.

(** Among subjects with distinct ids, exactly one has a given id of the
    list. *)
Lemma sum_Z_indicator (l : list Subject.t) (k : Z) :
  NoDup (Subject.id <$> l) →
  sum_Z ((λ subj, if decide (k = Subject.id subj) then 1 else 0) <$> l)
  = if decide (k ∈ Subject.id <$> l) then 1 else 0.
Proof.
  induction l as [|subj l IH]; intros Hnd; [done|].
  rewrite fmap_cons, NoDup_cons in Hnd. destruct Hnd as [Hsubj Hnd].
  rewrite !fmap_cons. unfold sum_Z in *. cbn [foldr]. rewrite IH by done.
  destruct (decide (k = Subject.id subj)) as [->|Hne].
  - rewrite decide_False by done.
    rewrite decide_True by (by left). done.
  - destruct (decide (k ∈ Subject.id <$> l)) as [Hin|Hnin].
    + rewrite decide_True by (by right). done.
    + rewrite decide_False; [done|].
      intros [?|?]%elem_of_cons; done.
Qed.

(** The per-subject counts of a student add up to the student's count when
    every counted row belongs to one of the subjects. *)
Lemma sum_Z_counts (extra : Attendance.row → Prop) `{∀ r, Decision (extra r)}
    (student_id : Z) (l : list Subject.t) (table : list Attendance.row) :
  NoDup (Subject.id <$> l) →
  (∀ r, r ∈ table → Attendance.student_id r = student_id →
        Attendance.subject_id r ∈ Subject.id <$> l) →
  sum_Z ((λ subj, count (λ r, Attendance.student_id r = student_id
                              ∧ Attendance.subject_id r = Subject.id subj
                              ∧ extra r) table) <$> l)
  = count (λ r, Attendance.student_id r = student_id ∧ extra r) table.
Proof.
  intros Hnd. induction table as [|r table IH]; intros Hin.
  { apply sum_Z_zero. done. }
  rewrite count_cons.
  rewrite (list_fmap_ext _
             (λ subj, (if decide (Attendance.student_id r = student_id ∧ extra r)
                       then if decide (Attendance.subject_id r = Subject.id subj)
                            then 1 else 0
                       else 0)
                      + count (λ r, Attendance.student_id r = student_id
                                    ∧ Attendance.subject_id r = Subject.id subj
                                    ∧ extra r) table)).
  2:{ intros i subj _. rewrite count_cons. f_equal.
      repeat case_decide; try done; tauto. }
  rewrite sum_Z_add, IH by (intros r' Hr'; apply Hin; by right). f_equal.
  destruct (decide (Attendance.student_id r = student_id ∧ extra r)) as [[Hs He]|Hn].
  - rewrite sum_Z_indicator by done.
    rewrite decide_True; [done|]. apply Hin; [by left|done].
  - apply sum_Z_zero. done.
Qed.

Lemma subjects_of_ids_NoDup db student :
  NoDup (Subject.id <$> subjects db) →
  NoDup (Subject.id <$> subjects_of db student).
Proof.
  intros Hnd. unfold subjects_of. rewrite order_by_Permutation.
  apply (sublist_NoDup _ (Subject.id <$> subjects db)); [done|].
  apply fmap_sublist, sublist_filter.
Qed.

Lemma breakdown_entries table student subjects entries :
  Forall2 (λ subject e, subject_breakdown_entry table student subject = Some e)
          subjects entries →
  entry_total <$> entries
  = (λ subj, count (λ r, Attendance.student_id r = Student.id student
                         ∧ Attendance.subject_id r = Subject.id subj) table)
      <$> subjects
  ∧ entry_present <$> entries
    = (λ subj, count (λ r, Attendance.student_id r = Student.id student
                           ∧ Attendance.subject_id r = Subject.id subj
                           ∧ Attendance.row_status r = P) table)
        <$> subjects
  ∧ entry_absent <$> entries
    = (λ e, entry_total e - entry_present e) <$> entries.
Proof.
  induction 1 as [|subject e l k He _ (IH1 & IH2 & IH3)]; [done|].
  rewrite !fmap_cons, IH1, IH2, IH3.
  destruct (subject_breakdown_entry_Some table student subject)
    as (e' & He' & _ & Ht & Hp & Ha & _).
  simplify_eq. by rewrite Ha, Ht, Hp.
Qed.

Lemma count_ext (cond1 cond2 : Attendance.row → Prop)
    `{∀ r, Decision (cond1 r)} `{∀ r, Decision (cond2 r)} table :
  (∀ r, cond1 r ↔ cond2 r) → count cond1 table = count cond2 table.
Proof.
  intros Hiff. apply Z.le_antisymm; apply count_le; intros r; apply Hiff.
Qed.

(** X10. When subject ids are unique and every record of the student is
    for a subject of the student's department and year, the student's
    dashboard is consistent: the overall total, present and absent counts
    are the sums of the per-subject totals, presents and absents. *)
Theorem X10_dashboard_totals_add_up (db : DB) (student : Student.t) :
  NoDup (Subject.id <$> subjects db) →
  (∀ r, r ∈ attendances db →
        Attendance.student_id r = Student.id student →
        ∃ subj, subj ∈ subjects db
                ∧ Subject.id subj = Attendance.subject_id r
                ∧ Subject.department subj = Student.department student
                ∧ Subject.year subj = Student.year student) →
  ∃ ctx,
    dashboard db student = Some ctx
    ∧ total_classes ctx = sum_Z (entry_total <$> subject_attendance ctx)
    ∧ present_classes ctx = sum_Z (entry_present <$> subject_attendance ctx)
    ∧ absent_classes ctx = sum_Z (entry_absent <$> subject_attendance ctx)
    ∧ absent_classes ctx = total_classes ctx - present_classes ctx.
Proof.
  intros Hnd Hrows. unfold dashboard.
  destruct (view_percentage_Some
    (count (λ r, Attendance.student_id r = Student.id student
                 ∧ Attendance.row_status r = P) (attendances db))
    (count (λ r, Attendance.student_id r = Student.id student) (attendances db)))
    as (n & -> & _).
  destruct (perSubjectBreakdown_Some db student) as (entries & -> & Hall).
  simpl. eexists. split; [reflexivity|]. simpl.
  destruct (breakdown_entries _ _ _ _ Hall) as (Ht & Hp & Ha).
  assert (∀ r, r ∈ attendances db →
               Attendance.student_id r = Student.id student →
               Attendance.subject_id r ∈ Subject.id <$> subjects_of db student)
    as Hin.
  { intros r Hr Hs. destruct (Hrows r Hr Hs) as (subj & Hsubj & <- & Hd & Hy).
    apply list_elem_of_fmap_2. unfold subjects_of.
    rewrite order_by_Permutation. apply list_elem_of_filter. done. }
  pose proof (subjects_of_ids_NoDup db student Hnd) as Hnd'.
  assert (sum_Z (entry_total <$> entries)
          = count (λ r, Attendance.student_id r = Student.id student)
                  (attendances db)) as Htotal.
  { rewrite Ht.
    rewrite <-(count_ext (λ r, Attendance.student_id r = Student.id student ∧ True)
                 (λ r, Attendance.student_id r = Student.id student))
      by (intros r; tauto).
    rewrite <-(sum_Z_counts (λ _, True) (Student.id student)
                 (subjects_of db student)) by done.
    f_equal. apply list_fmap_ext. intros i subj _.
    apply count_ext. intros r. tauto. }
  assert (sum_Z (entry_present <$> entries)
          = count (λ r, Attendance.student_id r = Student.id student
                        ∧ Attendance.row_status r = P) (attendances db))
    as Hpresent.
  { rewrite Hp.
    by rewrite (sum_Z_counts (λ r, Attendance.row_status r = P)
                  (Student.id student) (subjects_of db student)). }
  split_and!; [done|done| |done].
  rewrite Ha, sum_Z_sub. by rewrite Htotal, Hpresent.
Qed.

Lemma X10_witness :
  NoDup (Subject.id <$> subjects login_db)
  ∧ ∃ ctx,
      dashboard login_db student_with_login = Some ctx
      ∧ total_classes ctx = sum_Z (entry_total <$> subject_attendance ctx)
      ∧ present_classes ctx = sum_Z (entry_present <$> subject_attendance ctx)
      ∧ absent_classes ctx = sum_Z (entry_absent <$> subject_attendance ctx)
      ∧ absent_classes ctx = total_classes ctx - present_classes ctx.
Proof.
  assert (NoDup (Subject.id <$> subjects login_db)) as Hnd.
  { refine (bool_decide_unpack _ _). vm_compute. exact I. }
  split; [exact Hnd|].
  apply (X10_dashboard_totals_add_up login_db student_with_login Hnd).
  intros r Hr Hs. exists subject_CS101.
  split; [by left|]. vm_compute in Hr.
  repeat (apply elem_of_cons in Hr as [->|Hr]; [by vm_compute|]).
  by apply elem_of_nil in Hr.
Defined.

(** X11. A student with no present record in a positive number of classes
    gets the float 0.0 (not the int 0 of the no-class case), in the model
    method and in the views alike. *)
Theorem X11_no_presence_is_zero (total : Z) :
  0 < total →
  method_percentage 0 total = Some (PyFloat (S754_zero false))
  ∧ view_percentage 0 total = Some (PyFloat (S754_zero false)).
Proof.
  intros Hpos. rewrite view_percentage_method by lia. split; [|idtac].
  - unfold method_percentage, percent_expr, int_truediv.
    rewrite !decide_False by lia.
    destruct total as [|p|p]; [lia| |lia]. simpl.
    unfold float_mul_int.
    replace (float_of_int 100) with (S754_finite false 7036874417766400 (-46))
      by (vm_compute; reflexivity).
    reflexivity.
  - unfold method_percentage, percent_expr, int_truediv.
    rewrite !decide_False by lia.
    destruct total as [|p|p]; [lia| |lia]. simpl.
    unfold float_mul_int.
    replace (float_of_int 100) with (S754_finite false 7036874417766400 (-46))
      by (vm_compute; reflexivity).
    reflexivity.
Qed.

Lemma X11_witness :
  0 < 5
  ∧ method_percentage 0 5 = Some (PyFloat (S754_zero false))
  ∧ view_percentage 0 5 = Some (PyFloat (S754_zero false)).
Proof. split; [lia|]. apply (X11_no_presence_is_zero 5). lia. Defined.
